(** * The MUSA in-order queue of hipSYCL: a shallow embedding

    This development embeds the host side of the MUSA backend runtime
    ([src/runtime/musa/musa_queue.cpp], [musa_instrumentation.cpp],
    [musa_event_pool.cpp]) as state-passing Rocq functions and proves the
    behavioural properties stated for it.

    The vendor runtime (the [musa*] and [mu*] entry points) is not part of
    the repository.  It is represented by two oracles that map the history of
    calls and the current call to the status the vendor library returns, and
    every call is appended to a trace.  All theorems quantify over the
    oracles, so they hold for every deterministic device. *)

From Stdlib Require Import ZArith NArith String List Bool Lia.
From Stdlib Require HexString.
From stdpp Require Import gmap strings.
Import ListNotations.

Open Scope string_scope.
Open Scope list_scope.
Open Scope Z_scope.

(** ** Vendor types *)

(** [musaError_t] is an enumeration of the vendor header.  The code only
    distinguishes [musaSuccess], [musaErrorNotReady] and everything else. *)
Inductive musaError_t :=
| musaSuccess
| musaErrorNotReady
| musaErrorOther (code : Z).

(** [MUresult] of the driver API; the code compares with [MUSA_SUCCESS]. *)
Inductive MUresult :=
| MUSA_SUCCESS
| MUSA_ERROR (code : Z).

Definition musaError_eqb (a b : musaError_t) : bool :=
  match a, b with
  | musaSuccess, musaSuccess => true
  | musaErrorNotReady, musaErrorNotReady => true
  | musaErrorOther x, musaErrorOther y => Z.eqb x y
  | _, _ => false
  end.

(** Opaque handles and pointers are machine addresses; [0] is [nullptr]. *)
Abbreviation pointer := Z (only parsing).
Abbreviation musaStream_t := Z (only parsing).
Abbreviation musaEvent_t := Z (only parsing).
Abbreviation MUmodule := Z (only parsing).
Abbreviation MUfunction := Z (only parsing).
Definition nullptr : pointer := 0.

Inductive musaMemcpyKind :=
| musaMemcpyHostToDevice
| musaMemcpyDeviceToHost
| musaMemcpyDeviceToDevice.

(** [std::size_t] is a 64-bit unsigned integer; products wrap around. *)
Abbreviation size_t := N (only parsing).
Definition size_t_modulus : N := 2 ^ 64.
Definition size_mul (a b : size_t) : size_t := ((a * b) mod size_t_modulus)%N.

(** [rt::range<3>] and [rt::id<3>]: three [size_t] components, index 0 first. *)
Record range3 := mk_range3 { r0 : size_t; r1 : size_t; r2 : size_t }.

Definition range3_eqb (a b : range3) : bool :=
  N.eqb (r0 a) (r0 b) && N.eqb (r1 a) (r1 b) && N.eqb (r2 a) (r2 b).

(** [id<3>{}] is value-initialised: all components zero. *)
Definition id3_zero : range3 := mk_range3 0%N 0%N 0%N.

Record musaPitchedPtr := make_musaPitchedPtr
  { pp_ptr : pointer; pp_pitch : size_t; pp_xsize : size_t; pp_ysize : size_t }.

Record musaExtent := mk_extent
  { ext_width : size_t; ext_height : size_t; ext_depth : size_t }.

Record musaMemcpy3DParms := mk_parms
  { srcPtr : musaPitchedPtr; dstPtr : musaPitchedPtr;
    extent : musaExtent; kind : musaMemcpyKind }.

(** Target of [musaMemPrefetchAsync]: [musaCpuDeviceId] or a device ordinal. *)
Inductive prefetch_target :=
| musaCpuDeviceId
| to_device (ordinal : Z).

(** Every entry point of the vendor library the queue calls, with its
    arguments.  [activate_device] goes through the device manager. *)
Inductive api_call :=
| activate_device_call (ordinal : Z)
| musaStreamDestroy (s : musaStream_t)
| musaStreamSynchronize (s : musaStream_t)
| musaStreamQuery (s : musaStream_t)
| musaStreamWaitEvent (s : musaStream_t) (e : musaEvent_t)
| musaStreamAddCallback (s : musaStream_t) (userData : pointer)
| musaEventCreate
| musaEventRecord (e : musaEvent_t) (s : musaStream_t)
| musaEventElapsedTime (e0 e1 : musaEvent_t)
| musaMemcpyAsync (dst src : pointer) (bytes : size_t)
                  (k : musaMemcpyKind) (s : musaStream_t)
| musaMemcpy2DAsync (dst : pointer) (dpitch : size_t) (src : pointer)
                    (spitch width height : size_t)
                    (k : musaMemcpyKind) (s : musaStream_t)
| musaMemcpy3DAsync (p : musaMemcpy3DParms) (s : musaStream_t)
| musaMemPrefetchAsync (p : pointer) (bytes : size_t)
                       (target : prefetch_target) (s : musaStream_t)
| musaMemsetAsync (p : pointer) (pattern : Z) (bytes : size_t)
                  (s : musaStream_t)
| muModuleLoadData (image : string)
| muModuleGetFunction (m : MUmodule) (name : string)
| muLaunchKernel (f : MUfunction) (gx gy gz bx by_ bz : Z)
                 (shared_memory : Z) (s : musaStream_t) (args : pointer).

(** ** Results and errors ([hipSYCL/runtime/error.hpp]) *)

Inductive error_code :=
| code_MUSA (err : musaError_t)       (* error_code{"MUSA", err} *)
| code_MU_rt (err : musaError_t)      (* error_code{"MU", static_cast<int>(err)} *)
| code_MU (err : MUresult).           (* error_code{"MU", static_cast<int>(err)} *)

Record error_info := mk_error_info
  { what : string; ecode : option error_code }.

(** A [result] is success or carries an [error_info]; the source location
    recorded by [__hipsycl_here()] is not modelled. *)
Inductive result :=
| make_success
| make_error (info : error_info).

Definition is_success (r : result) : bool :=
  match r with make_success => true | make_error _ => false end.

(** ** Task graph nodes *)

Record dag_node := mk_dag_node
  { node_id : N;
    request_instrumentation_submission_timestamp : bool;
    request_instrumentation_start_timestamp : bool;
    request_instrumentation_finish_timestamp : bool }.

(** [dag_node_ptr] is a [std::shared_ptr<dag_node>]; [None] is the null
    pointer. *)
Abbreviation dag_node_ptr := (option dag_node) (only parsing).

(** A [musa_node_event]: the wrapped handle and the device it lives on. *)
Record musa_node_event := mk_node_event
  { ev_dev : Z; ev_handle : musaEvent_t }.

Inductive instrumentation :=
| submission_timestamp
| execution_start_timestamp (start : option musa_node_event)
| execution_finish_timestamp (start finish : option musa_node_event).

(** Host-side actions on the heap cells and the task graph. *)
Inductive host_event :=
| new_node_ptr (p : pointer)
| delete_node_ptr (p : pointer)
| node_wait (n : dag_node_ptr).

Inductive diagnostic :=
| debug_warning (msg : string)
| debug_error (msg : string)
| debug_info (msg : string).

(** ** Code objects and kernel containers *)

Abbreviation hcf_object_id := N (only parsing).
Abbreviation code_object_id := N (only parsing).

(** What the queue reads from a [code_object]: the loaded module and
    [supported_backend_kernel_names()]. *)
Record code_object := mk_code_object
  { get_build_result : result;
    get_module : MUmodule;
    supported_backend_kernel_names : list string }.

(** A target node of an HCF container with its binary attachment. *)
Record hcf_node := mk_hcf_node
  { has_binary_data_attached : bool;
    binary_attachment : option string }.

(** [common::hcf_container]: the root node is absent or holds the named
    subnodes in their order. *)
Record hcf_container := mk_hcf_container
  { root_node : option (list (string * hcf_node)) }.

Definition get_subnodes (root : list (string * hcf_node)) : list string :=
  map fst root.

Fixpoint get_subnode (root : list (string * hcf_node)) (name : string)
  : option hcf_node :=
  match root with
  | [] => None
  | (n, node) :: rest =>
      if String.eqb n name then Some node else get_subnode rest name
  end.

(** [glue::kernel_configuration]: the base configuration entries appended
    so far. *)
Inductive kernel_base_config_parameter :=
| backend_id
| compilation_flow
| hcf_object_id_param
| target_arch
| runtime_device.

Inductive config_value :=
| value_backend_musa
| value_explicit_multipass
| value_sscp
| value_object (id : hcf_object_id)
| value_string (s : string).

Definition kernel_configuration :=
  list (kernel_base_config_parameter * config_value).

(** ** The world the queue acts on *)

Record world := mk_world
  { api_trace : list api_call;            (* vendor calls, oldest first *)
    registered_errors : list result;      (* register_error *)
    diagnostics : list diagnostic;        (* HIPSYCL_DEBUG_* streams *)
    pool_free : list musaEvent_t;         (* free handles of the event pool *)
    heap : gmap Z dag_node_ptr;           (* live [new dag_node_ptr] cells *)
    host_trace : list host_event;         (* oldest first *)
    instrumentations : list instrumentation;
    code_objects : gmap N code_object }.  (* the kernel cache *)

(** ** Computations: state passing, with [assert] aborting the process

    A computation returns a value and the new world, or stops at a failed
    [assert] (the code is modelled as built without [NDEBUG]), or has no
    defined behaviour (a dangling or null pointer is used). *)

Inductive outcome (A : Type) :=
| Returned (a : A) (w : world)
| AssertionFailed (expr : string)
| Undefined (why : string).
Arguments Returned {A} a w.
Arguments AssertionFailed {A} expr.
Arguments Undefined {A} why.

Definition run (A : Type) := world -> outcome A.

Definition ret {A} (a : A) : run A := fun w => Returned a w.

Definition bind {A B} (c : run A) (k : A -> run B) : run B :=
  fun w => match c w with
           | Returned a w' => k a w'
           | AssertionFailed e => AssertionFailed e
           | Undefined e => Undefined e
           end.

Declare Scope run_scope.
Delimit Scope run_scope with run.
Notation "'do' x <- c ; k" := (bind c (fun x => k))
  (at level 10, x name, c at level 100, k at level 200) : run_scope.
Notation "c ;; k" := (bind c (fun _ => k))
  (at level 100, k at level 200, right associativity) : run_scope.
Open Scope run_scope.

Definition assert (cond : bool) (expr : string) : run unit :=
  fun w => if cond then Returned tt w else AssertionFailed expr.

Definition undefined {A} (why : string) : run A := fun _ => Undefined why.

Definition register_error (r : result) : run unit :=
  fun w => Returned tt
    {| api_trace := api_trace w;
       registered_errors := registered_errors w ++ [r];
       diagnostics := diagnostics w;
       pool_free := pool_free w;
       heap := heap w;
       host_trace := host_trace w;
       instrumentations := instrumentations w;
       code_objects := code_objects w |}.

Definition emit (d : diagnostic) : run unit :=
  fun w => Returned tt
    {| api_trace := api_trace w;
       registered_errors := registered_errors w;
       diagnostics := diagnostics w ++ [d];
       pool_free := pool_free w;
       heap := heap w;
       host_trace := host_trace w;
       instrumentations := instrumentations w;
       code_objects := code_objects w |}.

Definition log_call (c : api_call) (w : world) : world :=
  {| api_trace := api_trace w ++ [c];
     registered_errors := registered_errors w;
     diagnostics := diagnostics w;
     pool_free := pool_free w;
     heap := heap w;
     host_trace := host_trace w;
     instrumentations := instrumentations w;
     code_objects := code_objects w |}.

Definition log_host (h : host_event) : run unit :=
  fun w => Returned tt
    {| api_trace := api_trace w;
       registered_errors := registered_errors w;
       diagnostics := diagnostics w;
       pool_free := pool_free w;
       heap := heap w;
       host_trace := host_trace w ++ [h];
       instrumentations := instrumentations w;
       code_objects := code_objects w |}.

Definition add_instrumentation (i : instrumentation) : run unit :=
  fun w => Returned tt
    {| api_trace := api_trace w;
       registered_errors := registered_errors w;
       diagnostics := diagnostics w;
       pool_free := pool_free w;
       heap := heap w;
       host_trace := host_trace w;
       instrumentations := instrumentations w ++ [i];
       code_objects := code_objects w |}.

Definition set_pool (l : list musaEvent_t) : run unit :=
  fun w => Returned tt
    {| api_trace := api_trace w;
       registered_errors := registered_errors w;
       diagnostics := diagnostics w;
       pool_free := l;
       heap := heap w;
       host_trace := host_trace w;
       instrumentations := instrumentations w;
       code_objects := code_objects w |}.

Definition set_heap (h : gmap Z dag_node_ptr) : run unit :=
  fun w => Returned tt
    {| api_trace := api_trace w;
       registered_errors := registered_errors w;
       diagnostics := diagnostics w;
       pool_free := pool_free w;
       heap := h;
       host_trace := host_trace w;
       instrumentations := instrumentations w;
       code_objects := code_objects w |}.

Definition set_code_objects (c : gmap N code_object) : run unit :=
  fun w => Returned tt
    {| api_trace := api_trace w;
       registered_errors := registered_errors w;
       diagnostics := diagnostics w;
       pool_free := pool_free w;
       heap := heap w;
       host_trace := host_trace w;
       instrumentations := instrumentations w;
       code_objects := c |}.

Definition get_world : run world := fun w => Returned w w.

(** ** The queue *)

(** The platform enumerations of [hipSYCL/runtime/backend.hpp]. *)
Inductive hardware_platform := hw_rocm | hw_cuda | hw_musa | hw_level_zero | hw_ocl | hw_cpu.
Inductive api_platform := api_cuda | api_hip | api_musa | api_level_zero | api_ocl | api_omp.

Definition hardware_platform_eqb (a b : hardware_platform) : bool :=
  match a, b with
  | hw_rocm, hw_rocm | hw_cuda, hw_cuda | hw_musa, hw_musa
  | hw_level_zero, hw_level_zero | hw_ocl, hw_ocl | hw_cpu, hw_cpu => true
  | _, _ => false
  end.

Definition api_platform_eqb (a b : api_platform) : bool :=
  match a, b with
  | api_cuda, api_cuda | api_hip, api_hip | api_musa, api_musa
  | api_level_zero, api_level_zero | api_ocl, api_ocl | api_omp, api_omp => true
  | _, _ => false
  end.

(** [device_id]: the full backend descriptor and the device ordinal. *)
Record device_id := mk_device_id
  { hw_platform : hardware_platform; sw_platform : api_platform; get_id : Z }.

Record musa_queue := mk_queue
  { _dev : device_id; _stream : musaStream_t }.

Definition get_stream (q : musa_queue) : musaStream_t := _stream q.

(** What [musaStreamQuery] leaves in the out-parameter. *)
Record inorder_queue_status := mk_status { is_complete : bool }.

(** ** Operations ([hipSYCL/runtime/operations.hpp]) *)

Record memory_location := mk_memory_location
  { get_device : device_id;
    get_access_ptr : pointer;
    get_allocation_shape : range3;
    get_access_offset : range3;
    get_element_size : size_t }.

(** [memcpy_operation]; [get_num_transferred_bytes] is the value of the
    accessor of that name, whose body is in [operations.cpp]. *)
Record memcpy_operation := mk_memcpy_operation
  { source : memory_location;
    dest : memory_location;
    get_num_transferred_elements : range3;
    get_num_transferred_bytes : size_t }.

Record prefetch_operation := mk_prefetch_operation
  { pf_pointer : pointer; pf_num_bytes : size_t; pf_target_is_host : bool }.

Record memset_operation := mk_memset_operation
  { ms_pointer : pointer; ms_pattern : Z; ms_num_bytes : size_t }.

(** A [dag_node_event] as [musa_event_time_delta] sees it: what the virtual
    [is_complete()] answers at the call, and the wrapped handle. *)
Record dag_node_event := mk_dag_node_event
  { event_is_complete : bool; get_event : musaEvent_t }.

(** [std::string::find(needle) != std::string::npos] *)
Fixpoint string_contains (hay needle : string) : bool :=
  String.prefix needle hay ||
  match hay with
  | EmptyString => false
  | String _ rest => string_contains rest needle
  end.

Definition string_empty (s : string) : bool :=
  match s with EmptyString => true | String _ _ => false end.

(** [static_cast<unsigned>] of a [size_t]. *)
Definition to_unsigned (n : size_t) : Z := Z.of_N (n mod 2 ^ 32)%N.

(** The first address above every live cell; never [nullptr]. *)
Definition fresh_pointer (h : gmap Z dag_node_ptr) : pointer :=
  1 + map_fold (fun k _ acc => Z.max k acc) 0 h.

Section Queue.

(** The vendor runtime: status and out-parameter of a runtime-API call, and
    of a driver-API call, given the calls issued so far. *)
Variable musart : list api_call -> api_call -> musaError_t * Z.
Variable mudrv : list api_call -> api_call -> MUresult * Z.

Definition rt_call (c : api_call) : run (musaError_t * Z) :=
  fun w => Returned (musart (api_trace w) c) (log_call c w).

Definition drv_call (c : api_call) : run (MUresult * Z) :=
  fun w => Returned (mudrv (api_trace w) c) (log_call c w).

Definition rt_status (c : api_call) : run musaError_t :=
  do r <- rt_call c; ret (fst r).

(** [musa_queue::activate_device] *)
Definition activate_device (q : musa_queue) : run unit :=
  do _ <- rt_call (activate_device_call (get_id (_dev q))); ret tt.

(** [musa_queue::~musa_queue] *)
Definition musa_queue_destroy (q : musa_queue) : run unit :=
  do err <- rt_status (musaStreamDestroy (_stream q));
  if negb (musaError_eqb err musaSuccess) then
    register_error
      (make_error (mk_error_info "musa_queue: Couldn't destroy stream"
                                 (Some (code_MUSA err))))
  else ret tt.

(** [musa_queue::wait] *)
Definition wait (q : musa_queue) : run result :=
  do err <- rt_status (musaStreamSynchronize (_stream q));
  if negb (musaError_eqb err musaSuccess) then
    ret (make_error
           (mk_error_info "musa_queue: Couldn't synchronize with stream"
                          (Some (code_MUSA err))))
  else ret make_success.

(** [musa_queue::query_status]: the status is an out-parameter, so the
    function returns the result together with the new value of [status]. *)
Definition query_status (q : musa_queue) (status : inorder_queue_status)
  : run (result * inorder_queue_status) :=
  do err <- rt_status (musaStreamQuery (_stream q));
  if musaError_eqb err musaSuccess then
    ret (make_success, mk_status true)
  else if musaError_eqb err musaErrorNotReady then
    ret (make_success, mk_status false)
  else
    ret (make_error
           (mk_error_info "musa_queue: Could not query stream status"
                          (Some (code_MU_rt err))),
         status).

(** *** The event pool *)

(** [musa_event_factory::create]: the out-parameter is assigned only on
    success, so the function yields either the error or the new handle. *)
Definition musa_event_factory_create (device : Z)
  : run (error_info + musaEvent_t) :=
  do _ <- rt_call (activate_device_call device);
  do r <- rt_call musaEventCreate;
  if negb (musaError_eqb (fst r) musaSuccess) then
    ret (inl (mk_error_info "musa_event_factory: Couldn't create event"
                            (Some (code_MUSA (fst r)))))
  else ret (inr (snd r)).

(** Modelled from the spec: [event_pool<musa_event_factory>::obtain_event]
    of [hipSYCL/runtime/event_pool.hpp], which is not among the sources.
    "acquire() -> handle creates a new handle only if none is free". *)
Definition obtain_event (device : Z) : run (error_info + musaEvent_t) :=
  do w <- get_world;
  match pool_free w with
  | e :: rest => do _ <- set_pool rest; ret (inr e)
  | [] => musa_event_factory_create device
  end.

(** [musa_queue::insert_event]; [None] is the returned [nullptr]. *)
Definition insert_event (q : musa_queue) : run (option musa_node_event) :=
  do event_creation_result <- obtain_event (get_id (_dev q));
  match event_creation_result with
  | inl info =>
      do _ <- register_error (make_error info);
      ret None
  | inr evt =>
      do err <- rt_status (musaEventRecord evt (get_stream q));
      if negb (musaError_eqb err musaSuccess) then
        do _ <- register_error
                  (make_error
                     (mk_error_info "musa_queue: Couldn't record event"
                                    (Some (code_MUSA err))));
        ret None
      else
        ret (Some (mk_node_event (get_id (_dev q)) evt))
  end.

(** *** [musa_instrumentation_guard] *)

(** The constructor; it yields the member [_task_start].  The queue is
    passed by value here, so [assert(q)] cannot fail; the clock value read by
    [profiler_clock::now()] and the timing reference of the queue are not
    part of the recorded instrumentation. *)
Definition guard_construct (q : musa_queue) (node : dag_node_ptr)
  : run (option musa_node_event) :=
  match node with
  | None => ret None
  | Some n =>
      do _ <- (if request_instrumentation_submission_timestamp n
               then add_instrumentation submission_timestamp
               else ret tt);
      if request_instrumentation_start_timestamp n then
        do task_start <- insert_event q;
        do _ <- add_instrumentation (execution_start_timestamp task_start);
        ret task_start
      else ret None
  end.

(** The destructor, run when the submission function leaves its scope. *)
Definition guard_destruct (q : musa_queue) (node : dag_node_ptr)
    (task_start : option musa_node_event) : run unit :=
  match node with
  | None => ret tt
  | Some n =>
      if request_instrumentation_finish_timestamp n then
        do task_finish <- insert_event q;
        match task_start with
        | Some _ =>
            add_instrumentation
              (execution_finish_timestamp task_start task_finish)
        | None =>
            add_instrumentation (execution_finish_timestamp None task_finish)
        end
      else ret tt
  end.

(** *** [musa_queue::submit_memcpy] *)

(** [extract_from_range3<2>] of [hipSYCL/runtime/util.hpp] is not among the
    sources; it is a parameter.  Only the arguments of the 2D call depend on
    it. *)
Variable extract_from_range3_2 : range3 -> size_t * size_t.

(** The copy direction, lines 257-280. *)
Definition select_copy_kind (source_dev dest_dev : device_id)
  : run musaMemcpyKind :=
  if api_platform_eqb (sw_platform source_dev) api_musa then
    if api_platform_eqb (sw_platform dest_dev) api_musa then
      do _ <- assert (hardware_platform_eqb (hw_platform source_dev)
                                            (hw_platform dest_dev))
                "different MUSA hardware backends";
      ret musaMemcpyDeviceToDevice
    else if hardware_platform_eqb (hw_platform dest_dev) hw_cpu then
      ret musaMemcpyDeviceToHost
    else
      do _ <- assert false "Unknown copy destination platform";
      ret musaMemcpyHostToDevice
  else if hardware_platform_eqb (hw_platform source_dev) hw_cpu then
    if api_platform_eqb (sw_platform dest_dev) api_musa then
      ret musaMemcpyHostToDevice
    else
      do _ <- assert false "Unknown copy destination platform";
      ret musaMemcpyHostToDevice
  else
    do _ <- assert false "Unknown copy source platform";
    ret musaMemcpyHostToDevice.

(** Lines 285-291: the dimension read off the transfer range. *)
Definition transfer_dimension (transfer_range : range3) : Z :=
  if (1 <? r0 transfer_range)%N then 3
  else if (1 <? r1 transfer_range)%N then 2
  else 1.

(** Lines 296-299: the test for a copy of the entire buffer. *)
Definition entire_buffer (op : memcpy_operation) : bool :=
  range3_eqb (get_num_transferred_elements op)
             (get_allocation_shape (source op)) &&
  range3_eqb (get_num_transferred_elements op)
             (get_allocation_shape (dest op)) &&
  range3_eqb (get_access_offset (source op)) id3_zero &&
  range3_eqb (get_access_offset (dest op)) id3_zero.

(** Lines 283-300: the value of the local [dimension]. *)
Definition memcpy_dimension (op : memcpy_operation) : Z :=
  let dimension := transfer_dimension (get_num_transferred_elements op) in
  if entire_buffer op then 1 else dimension.

(** Lines 308-346: the vendor call chosen for a dimension. *)
Definition memcpy_call (q : musa_queue) (op : memcpy_operation)
    (copy_kind : musaMemcpyKind) (dimension : Z) : api_call :=
  if dimension =? 1 then
    musaMemcpyAsync (get_access_ptr (dest op)) (get_access_ptr (source op))
                    (get_num_transferred_bytes op) copy_kind (get_stream q)
  else if dimension =? 2 then
    musaMemcpy2DAsync
      (get_access_ptr (dest op))
      (size_mul (snd (extract_from_range3_2 (get_allocation_shape (dest op))))
                (get_element_size (dest op)))
      (get_access_ptr (source op))
      (size_mul (snd (extract_from_range3_2 (get_allocation_shape (source op))))
                (get_element_size (source op)))
      (size_mul (snd (extract_from_range3_2 (get_num_transferred_elements op)))
                (get_element_size (source op)))
      (fst (extract_from_range3_2 (get_num_transferred_elements op)))
      copy_kind (get_stream q)
  else
    musaMemcpy3DAsync
      {| srcPtr := make_musaPitchedPtr
                     (get_access_ptr (source op))
                     (size_mul (r2 (get_allocation_shape (source op)))
                               (get_element_size (source op)))
                     (r2 (get_allocation_shape (source op)))
                     (r1 (get_allocation_shape (source op)));
         dstPtr := make_musaPitchedPtr
                     (get_access_ptr (dest op))
                     (size_mul (r2 (get_allocation_shape (dest op)))
                               (get_element_size (dest op)))
                     (r2 (get_allocation_shape (dest op)))
                     (r1 (get_allocation_shape (dest op)));
         extent := mk_extent
                     (size_mul (r2 (get_num_transferred_elements op))
                               (get_element_size (source op)))
                     (r1 (get_num_transferred_elements op))
                     (r0 (get_num_transferred_elements op));
         kind := copy_kind |}
      (get_stream q).

Definition submit_memcpy (q : musa_queue) (op : memcpy_operation)
    (node : dag_node_ptr) : run result :=
  let source_dev := get_device (source op) in
  let dest_dev := get_device (dest op) in
  do _ <- assert (negb (get_access_ptr (source op) =? nullptr))
            "op.source().get_access_ptr()";
  do _ <- assert (negb (get_access_ptr (dest op) =? nullptr))
            "op.dest().get_access_ptr()";
  do copy_kind <- select_copy_kind source_dev dest_dev;
  let dimension := memcpy_dimension op in
  do _ <- assert ((1 <=? dimension) && (dimension <=? 3))
            "dimension >= 1 && dimension <= 3";
  do task_start <- guard_construct q node;
  do err <- rt_status (memcpy_call q op copy_kind dimension);
  let r := if negb (musaError_eqb err musaSuccess)
           then make_error (mk_error_info "musa_queue: Couldn't submit memcpy"
                                          (Some (code_MUSA err)))
           else make_success in
  do _ <- guard_destruct q node task_start;
  ret r.

(** *** [musa_queue::submit_prefetch] *)

(** The preprocessor symbol [_WIN32]: set on the platform without
    asynchronous prefetch. *)
Variable _WIN32 : bool.

Definition submit_prefetch (q : musa_queue) (op : prefetch_operation)
    (node : dag_node_ptr) : run result :=
  if negb _WIN32 then
    do task_start <- guard_construct q node;
    do err <- rt_status
                (musaMemPrefetchAsync
                   (pf_pointer op) (pf_num_bytes op)
                   (if pf_target_is_host op then musaCpuDeviceId
                    else to_device (get_id (_dev q)))
                   (get_stream q));
    do _ <- guard_destruct q node task_start;
    if negb (musaError_eqb err musaSuccess) then
      ret (make_error
             (mk_error_info "musa_queue: musaMemPrefetchAsync() failed"
                            (Some (code_MUSA err))))
    else ret make_success
  else
    do _ <- emit (debug_warning "musa_queue: Ignoring prefetch() hint");
    ret make_success.

(** *** [musa_queue::submit_memset] *)
Definition submit_memset (q : musa_queue) (op : memset_operation)
    (node : dag_node_ptr) : run result :=
  do task_start <- guard_construct q node;
  do err <- rt_status (musaMemsetAsync (ms_pointer op) (ms_pattern op)
                                       (ms_num_bytes op) (get_stream q));
  do _ <- guard_destruct q node task_start;
  if negb (musaError_eqb err musaSuccess) then
    ret (make_error (mk_error_info "musa_queue: musaMemsetAsync() failed"
                                   (Some (code_MUSA err))))
  else ret make_success.

(** *** Host synchronisation *)

(** [host_synchronization_callback]: [userData] addresses a heap cell that
    holds a [dag_node_ptr]. *)
Definition host_synchronization_callback (stream : musaStream_t)
    (status : musaError_t) (userData : pointer) : run unit :=
  do _ <- assert (negb (userData =? nullptr)) "userData";
  do _ <- (if negb (musaError_eqb status musaSuccess) then
             register_error
               (make_error
                  (mk_error_info
                     "musa_queue callback: MUSA returned error code."
                     (Some (code_MUSA status))))
           else
             do w <- get_world;
             match heap w !! userData with
             | Some (Some n) => log_host (node_wait (Some n))
             | Some None => undefined "null dag_node_ptr dereferenced"
             | None => undefined "dangling user data dereferenced"
             end);
  do w <- get_world;
  match heap w !! userData with
  | Some _ =>
      do _ <- set_heap (delete userData (heap w));
      log_host (delete_node_ptr userData)
  | None => undefined "delete of a pointer that is not live"
  end.

(** [musa_queue::submit_external_wait_for] *)
Definition submit_external_wait_for (q : musa_queue) (node : dag_node_ptr)
  : run result :=
  do w <- get_world;
  let user_data := fresh_pointer (heap w) in
  do _ <- log_host (new_node_ptr user_data);
  do _ <- assert (negb (user_data =? nullptr)) "user_data";
  do _ <- set_heap (<[user_data := node]> (heap w));
  do err <- rt_status (musaStreamAddCallback (_stream q) user_data);
  if negb (musaError_eqb err musaSuccess) then
    ret (make_error
           (mk_error_info "musa_queue: Couldn't submit stream callback"
                          (Some (code_MUSA err))))
  else ret make_success.

(** *** [musa_event_time_delta::operator()] *)

(** [musaEventElapsedTime] leaves a [float] of milliseconds in its
    out-parameter; the oracle reports it as the bit pattern, and when the
    call fails [ms] is taken to keep its initial [0.0f].  The rounding to
    [profiler_clock::duration] by [std::chrono::round] is a parameter. *)
Variable chrono_round : Z -> Z.

Definition musa_event_time_delta (t0 t1 : dag_node_event) : run Z :=
  do _ <- assert (event_is_complete t0) "t0.is_complete()";
  do _ <- assert (event_is_complete t1) "t1.is_complete()";
  let t0_evt := get_event t0 in
  let t1_evt := get_event t1 in
  do r <- rt_call (musaEventElapsedTime t0_evt t1_evt);
  let ms := if negb (musaError_eqb (fst r) musaSuccess) then 0 else snd r in
  do _ <- (if negb (musaError_eqb (fst r) musaSuccess) then
             register_error
               (make_error
                  (mk_error_info
                     "musa_event_time_delta: musaEventElapsedTime() failed"
                     (Some (code_MUSA (fst r)))))
           else ret tt);
  ret (chrono_round ms).

(** *** Kernel launch from a code object *)

Definition MUresult_is_success (r : MUresult) : bool :=
  match r with MUSA_SUCCESS => true | MUSA_ERROR _ => false end.

(** [launch_kernel_from_module] *)
Definition launch_kernel_from_module (module : MUmodule)
    (kernel_name : string) (grid_size block_size : range3)
    (shared_memory : Z) (stream : musaStream_t) (kernel_args : pointer)
  : run result :=
  do r <- drv_call (muModuleGetFunction module kernel_name);
  if negb (MUresult_is_success (fst r)) then
    ret (make_error
           (mk_error_info "musa_queue: could not extract kernel from module"
                          (Some (code_MU (fst r)))))
  else
    let f := snd r in
    do r' <- drv_call
               (muLaunchKernel f
                  (to_unsigned (r0 grid_size)) (to_unsigned (r1 grid_size))
                  (to_unsigned (r2 grid_size))
                  (to_unsigned (r0 block_size)) (to_unsigned (r1 block_size))
                  (to_unsigned (r2 block_size))
                  shared_memory stream kernel_args);
    if negb (MUresult_is_success (fst r')) then
      ret (make_error
             (mk_error_info "musa_queue: could not submit kernel from module"
                            (Some (code_MU (fst r')))))
    else ret make_success.

(** The parts of the runtime that are not among the sources and that the
    multipass path calls: the HCF cache, the configuration hash, and the
    constructor of [musa_multipass_executable_object]. *)
Variable get_hcf : hcf_object_id -> option hcf_container.
Variable generate_id : kernel_configuration -> code_object_id.
Variable extend_hash :
  code_object_id -> kernel_base_config_parameter -> Z -> code_object_id.
Variable musa_multipass_executable_object :
  hcf_object_id -> string -> string -> Z -> run code_object.

(** Modelled from the spec: [kernel_cache::get_or_construct_code_object] of
    [hipSYCL/runtime/kernel_cache.hpp], which is not among the sources.
    "on miss, invokes the factory once, stores the result keyed by id,
    returns it; on hit, returns the stored object without invoking the
    factory.  Build failure (factory returns nothing, or the returned object
    reports a failed build) is surfaced to the caller and nothing is
    cached."  One caller at a time. *)
Definition get_or_construct_code_object (id : code_object_id)
    (c : run (option code_object)) : run (option code_object) :=
  do w <- get_world;
  match code_objects w !! id with
  | Some obj => ret (Some obj)
  | None =>
      do r <- c;
      match r with
      | Some obj =>
          if is_success (get_build_result obj) then
            do w' <- get_world;
            do _ <- set_code_objects (<[id := obj]> (code_objects w'));
            ret (Some obj)
          else ret None
      | None => ret None
      end
  end.

(** Lines 563-569: the first supported name that contains the given name. *)
Fixpoint find_full_kernel_name (names : list string)
    (backend_kernel_name : string) : string :=
  match names with
  | [] => EmptyString
  | name :: rest =>
      if string_contains name backend_kernel_name then name
      else find_full_kernel_name rest backend_kernel_name
  end.

(** The closure [code_object_constructor], lines 520-547. *)
Definition code_object_constructor (root : list (string * hcf_node))
    (hcf_object : hcf_object_id) (selected_target : string) (device : Z)
  : run (option code_object) :=
  match get_subnode root selected_target with
  | None => ret None
  | Some tn =>
      if negb (has_binary_data_attached tn) then ret None
      else
        match binary_attachment tn with
        | None =>
            do _ <- emit (debug_error
                      "musa_queue: Could not extract MUSA code from HCF node; invalid HCF data?");
            ret None
        | Some source_code =>
            do exec_obj <- musa_multipass_executable_object
                             hcf_object selected_target source_code device;
            let r := get_build_result exec_obj in
            if negb (is_success r) then
              do _ <- register_error r;
              ret None
            else ret (Some exec_obj)
        end
  end.

(** [musa_queue::submit_multipass_kernel_from_code_object] *)
Definition submit_multipass_kernel_from_code_object (q : musa_queue)
    (hcf_object : hcf_object_id) (backend_kernel_name : string)
    (grid_size block_size : range3) (dynamic_shared_mem : Z)
    (kernel_args : pointer) : run result :=
  do _ <- activate_device q;
  match get_hcf hcf_object with
  | None =>
      ret (make_error
             (mk_error_info "musa_queue: Could not access requested HCF object"
                            None))
  | Some hcf =>
      match root_node hcf with
      | None => do _ <- assert false "hcf->root_node()"; ret make_success
      | Some root =>
          let available_targets := get_subnodes root in
          match available_targets with
          | [] =>
              do _ <- assert false "!available_targets.empty()";
              ret make_success
          | selected_target :: _ =>
              let device := get_id (_dev q) in
              let config :=
                [ (backend_id, value_backend_musa);
                  (compilation_flow, value_explicit_multipass);
                  (hcf_object_id_param, value_object hcf_object);
                  (target_arch, value_string selected_target) ] in
              let binary_configuration_id := generate_id config in
              let code_object_configuration_id :=
                extend_hash binary_configuration_id runtime_device device in
              do obj <- get_or_construct_code_object
                          code_object_configuration_id
                          (code_object_constructor root hcf_object
                                                   selected_target device);
              match obj with
              | None =>
                  ret (make_error
                         (mk_error_info
                            "musa_queue: Code object construction failed"
                            None))
              | Some obj =>
                  let mumodule := get_module obj in
                  do _ <- assert (negb (mumodule =? 0)) "mumodule";
                  let full_kernel_name :=
                    find_full_kernel_name
                      (supported_backend_kernel_names obj)
                      backend_kernel_name in
                  if string_empty full_kernel_name then
                    ret (make_error
                           (mk_error_info
                              "musa_queue: Could not discover full kernel name from partial backend kernel name"
                              None))
                  else
                    launch_kernel_from_module
                      mumodule full_kernel_name grid_size block_size
                      dynamic_shared_mem (_stream q) kernel_args
              end
          end
      end
  end.

End Queue.

(** [musa_multipass_code_object_invoker::submit_kernel]: the name handed to
    the queue. *)
Definition invoker_kernel_name (kernel_name_tag kernel_body_name : string)
  : string :=
  if negb (string_contains kernel_name_tag "__hipsycl_unnamed_kernel")
  then kernel_name_tag else kernel_body_name.

(** ** Sample inputs

    A device on which every call succeeds, one on which every call fails,
    and small operands used to exercise the statements below. *)

Definition device_ok : list api_call -> api_call -> musaError_t * Z :=
  fun _ _ => (musaSuccess, 7).

Definition device_broken : list api_call -> api_call -> musaError_t * Z :=
  fun _ _ => (musaErrorOther 999, 0).

Definition driver_ok : list api_call -> api_call -> MUresult * Z :=
  fun _ _ => (MUSA_SUCCESS, 11).

Definition empty_world : world :=
  {| api_trace := []; registered_errors := []; diagnostics := [];
     pool_free := []; heap := ∅; host_trace := [];
     instrumentations := []; code_objects := ∅ |}.

Definition musa_device (ordinal : Z) : device_id :=
  mk_device_id hw_musa api_musa ordinal.

Definition host_device : device_id := mk_device_id hw_cpu api_omp 0.

Definition sample_queue : musa_queue := mk_queue (musa_device 0) 42.

(** A world in which a memset has been submitted to the stream of
    [sample_queue] and nothing has waited for it. *)
Definition busy_world : world :=
  {| api_trace := [musaMemsetAsync 4096 0 1024%N 42];
     registered_errors := []; diagnostics := [];
     pool_free := []; heap := ∅; host_trace := [];
     instrumentations := []; code_objects := ∅ |}.

Definition no_extract : range3 -> size_t * size_t := fun r => (r1 r, r2 r).

(** ** Vocabulary for the statements *)

(** The vendor copy calls, and the dispatch path each stands for. *)
Definition dispatch_path (c : api_call) : option Z :=
  match c with
  | musaMemcpyAsync _ _ _ _ _ => Some 1
  | musaMemcpy2DAsync _ _ _ _ _ _ _ _ => Some 2
  | musaMemcpy3DAsync _ _ => Some 3
  | _ => None
  end.

Definition is_memcpy_call (c : api_call) : bool :=
  match dispatch_path c with Some _ => true | None => false end.

Definition memcpy_calls (trace : list api_call) : list api_call :=
  List.filter is_memcpy_call trace.

(** The platform pairs for which lines 259-280 fail no assertion, and the
    copy direction chosen for them. *)
Definition platforms_supported (source_dev dest_dev : device_id) : bool :=
  if api_platform_eqb (sw_platform source_dev) api_musa then
    if api_platform_eqb (sw_platform dest_dev) api_musa then
      hardware_platform_eqb (hw_platform source_dev) (hw_platform dest_dev)
    else hardware_platform_eqb (hw_platform dest_dev) hw_cpu
  else
    hardware_platform_eqb (hw_platform source_dev) hw_cpu &&
    api_platform_eqb (sw_platform dest_dev) api_musa.

Definition copy_kind_of (source_dev dest_dev : device_id) : musaMemcpyKind :=
  if api_platform_eqb (sw_platform source_dev) api_musa then
    if api_platform_eqb (sw_platform dest_dev) api_musa
    then musaMemcpyDeviceToDevice else musaMemcpyDeviceToHost
  else musaMemcpyHostToDevice.

(** What the assertions of [submit_memcpy] demand of the operation. *)
Definition memcpy_contract (op : memcpy_operation) : bool :=
  negb (get_access_ptr (source op) =? nullptr) &&
  negb (get_access_ptr (dest op) =? nullptr) &&
  platforms_supported (get_device (source op)) (get_device (dest op)).

(** A copy of 4 x 4 x 4 floats that covers both allocations. *)
Definition whole_cube_copy : memcpy_operation :=
  {| source := mk_memory_location host_device 4096
                 (mk_range3 4 4 4) id3_zero 4%N;
     dest := mk_memory_location (musa_device 0) 8192
               (mk_range3 4 4 4) id3_zero 4%N;
     get_num_transferred_elements := mk_range3 4 4 4;
     get_num_transferred_bytes := 256%N |}.

(** A copy of 4 x 1 x 1 floats out of allocations of 8 x 8 x 8: extent 0,
    the leading one, is the only extent of the transfer range above 1. *)
Definition leading_column_copy : memcpy_operation :=
  {| source := mk_memory_location host_device 4096
                 (mk_range3 8 8 8) id3_zero 4%N;
     dest := mk_memory_location (musa_device 0) 8192
               (mk_range3 8 8 8) id3_zero 4%N;
     get_num_transferred_elements := mk_range3 4 1 1;
     get_num_transferred_bytes := 16%N |}.

(** A copy of 1 x 1 x 4 floats out of allocations of 8 x 8 x 8: extent 2,
    the fastest varying one, is the only extent above 1. *)
Definition trailing_row_copy : memcpy_operation :=
  {| source := mk_memory_location host_device 4096
                 (mk_range3 8 8 8) id3_zero 4%N;
     dest := mk_memory_location (musa_device 0) 8192
               (mk_range3 8 8 8) id3_zero 4%N;
     get_num_transferred_elements := mk_range3 1 1 4;
     get_num_transferred_bytes := 16%N |}.

(** A copy of 1 x 2 x 2 floats out of allocations of 4 x 4 x 4. *)
Definition plane_patch_copy : memcpy_operation :=
  {| source := mk_memory_location host_device 4096
                 (mk_range3 4 4 4) id3_zero 4%N;
     dest := mk_memory_location (musa_device 0) 8192
               (mk_range3 4 4 4) id3_zero 4%N;
     get_num_transferred_elements := mk_range3 1 2 2;
     get_num_transferred_bytes := 16%N |}.

(** A node that asks for all three timestamps. *)
Definition profiled_node : dag_node := mk_dag_node 1 true true true.

(** The cache key built in lines 501-516 for a container, its selected
    target and the device ordinal. *)
Definition multipass_code_object_id
    (generate_id : kernel_configuration -> code_object_id)
    (extend_hash :
       code_object_id -> kernel_base_config_parameter -> Z -> code_object_id)
    (hcf_object : hcf_object_id) (selected_target : string) (device : Z)
  : code_object_id :=
  extend_hash
    (generate_id
       [ (backend_id, value_backend_musa);
         (compilation_flow, value_explicit_multipass);
         (hcf_object_id_param, value_object hcf_object);
         (target_arch, value_string selected_target) ])
    runtime_device device.

Definition discovery_error : result :=
  make_error
    (mk_error_info
       "musa_queue: Could not discover full kernel name from partial backend kernel name"
       None).

(** A container with one target, a hash, and a code object that supports two
    kernels whose names both contain [kernel_add]. *)
Definition sample_hcf : hcf_object_id -> option hcf_container :=
  fun _ => Some (mk_hcf_container
                   (Some [("mp_22", mk_hcf_node true (Some "image"))])).

Definition sample_generate_id : kernel_configuration -> code_object_id :=
  fun c => N.of_nat (length c).

Definition sample_extend_hash
  : code_object_id -> kernel_base_config_parameter -> Z -> code_object_id :=
  fun id _ device => (id * 31 + Z.to_N device)%N.

Definition two_adders : code_object :=
  mk_code_object make_success 77 ["kernel_add_float"; "kernel_add_double"].

Definition sample_executable_object
  : hcf_object_id -> string -> string -> Z -> run code_object :=
  fun _ _ _ _ => ret two_adders.

Definition unit_range : range3 := mk_range3 1 1 1.

(** ** Kernel submission through a launcher, and the SSCP path *)

(** A [backend_kernel_launcher] as the queue uses it.  [set_params(this)]
    and [set_backend_capabilities(cap)] hand the queue and its two invokers
    to the launcher before [invoke]; the body of the launcher is therefore a
    computation that depends on the queue, the node and the kernel
    configuration.  It returns nothing. *)
Record backend_kernel_launcher := mk_launcher
  { invoke : musa_queue -> dag_node_ptr -> kernel_configuration -> run unit }.

(** A [kernel_operation]: [find_launcher_musa] is the value of
    [op.get_launcher().find_launcher(backend_id::musa)], [None] for the null
    pointer. *)
Record kernel_operation := mk_kernel_operation
  { find_launcher_musa : option backend_kernel_launcher;
    get_kernel_configuration : kernel_configuration }.

(** What the SSCP path reads from [hcf_kernel_info]. *)
Record hcf_kernel_info := mk_hcf_kernel_info
  { get_compilation_flags : list N;
    get_compilation_options : list (N * Z) }.

(** The constructor arguments of [kernel_adaptivity_engine]. *)
Record kernel_adaptivity_engine := mk_adaptivity_engine
  { ae_hcf_object : hcf_object_id;
    ae_kernel_name : string;
    ae_kernel_info : hcf_kernel_info;
    ae_num_groups : range3;
    ae_group_size : range3;
    ae_args : pointer;
    ae_arg_sizes : pointer;
    ae_num_args : size_t;
    ae_local_mem_size : Z }.

Definition sscp_not_built : result :=
  make_error
    (mk_error_info
       "musa_queue: SSCP kernel launch was requested, but hipSYCL was not built with MUSA SSCP support."
       None).

Definition construction_failed : result :=
  make_error
    (mk_error_info "musa_queue: Code object construction failed" None).

(** [operator<<] of an output stream for a pointer, as libstdc++ writes a
    64-bit address: hexadecimal digits with the base prefix, and [0] for the
    null pointer. *)
Definition pointer_to_stream (p : pointer) : string :=
  match Z.to_N (p mod 2 ^ 64) with
  | N0 => "0"
  | Npos digits => ("0x" ++ HexString.Raw.of_pos digits EmptyString)%string
  end.

Section Kernels.

Variable musart : list api_call -> api_call -> musaError_t * Z.
Variable mudrv : list api_call -> api_call -> MUresult * Z.

(** [musa_queue::submit_kernel] *)
Definition submit_kernel (q : musa_queue) (op : kernel_operation)
    (node : dag_node_ptr) : run result :=
  do _ <- activate_device musart q;
  match find_launcher_musa op with
  | None =>
      ret (make_error
             (mk_error_info "Could not obtain backend kernel launcher" None))
  | Some l =>
      do task_start <- guard_construct musart q node;
      do _ <- invoke l q node (get_kernel_configuration op);
      do _ <- guard_destruct musart q node task_start;
      ret make_success
  end.

Variable get_hcf : hcf_object_id -> option hcf_container.
Variable generate_id : kernel_configuration -> code_object_id.
Variable extend_hash :
  code_object_id -> kernel_base_config_parameter -> Z -> code_object_id.
Variable musa_multipass_executable_object :
  hcf_object_id -> string -> string -> Z -> run code_object.

(** [musa_multipass_code_object_invoker::submit_kernel]; the invoker holds
    the queue by pointer and [assert(_queue)] checks it, so the queue is an
    option here. *)
Definition multipass_invoker_submit_kernel (_queue : option musa_queue)
    (hcf_object : hcf_object_id) (num_groups group_size : range3)
    (local_mem_size : Z) (args : pointer)
    (kernel_name_tag kernel_body_name : string) : run result :=
  match _queue with
  | None => do _ <- assert false "_queue"; ret make_success
  | Some q =>
      let kernel_name :=
        if negb (string_contains kernel_name_tag "__hipsycl_unnamed_kernel")
        then kernel_name_tag else kernel_body_name in
      submit_multipass_kernel_from_code_object
        musart mudrv get_hcf generate_id extend_hash
        musa_multipass_executable_object q hcf_object kernel_name
        num_groups group_size local_mem_size args
  end.

(** *** [musa_queue::submit_sscp_kernel_from_code_object] *)

(** The preprocessor symbol, and the parts of the runtime and of the JIT
    glue that the SSCP path calls and that are not among the sources: the
    operations on [glue::kernel_configuration], the hardware context, the
    kernel information of the HCF cache, the adaptivity engine (whose
    [finalize_binary_configuration] takes the configuration by reference
    and so also yields its new value), the JIT
    compiler, the constructor of [musa_sscp_executable_object], the JIT side
    of the kernel cache, and the argument mapper ([None] when no mapping is
    available, otherwise the mapped arguments). *)
Variable HIPSYCL_WITH_SSCP_COMPILER : bool.
Variable glue_kernel_configuration : Type.
Variable append_base_configuration :
  glue_kernel_configuration -> kernel_base_config_parameter -> config_value ->
  glue_kernel_configuration.
Variable set_build_flag :
  glue_kernel_configuration -> N -> glue_kernel_configuration.
Variable set_build_option :
  glue_kernel_configuration -> N -> Z -> glue_kernel_configuration.
Variable musa_target_device : N.
Variable get_device_arch : Z -> string.
Variable get_compute_capability : Z -> Z.
Variable get_kernel_info : hcf_object_id -> string -> option hcf_kernel_info.
Variable finalize_binary_configuration :
  kernel_adaptivity_engine -> glue_kernel_configuration ->
  code_object_id * glue_kernel_configuration.
Variable select_image_and_kernels :
  kernel_adaptivity_engine -> string * list string.
Variable jit_compile :
  list string -> option hcf_container -> string -> glue_kernel_configuration ->
  run (result * string).
Variable musa_sscp_executable_object :
  string -> string -> hcf_object_id -> list string -> Z ->
  glue_kernel_configuration -> run code_object.
Variable get_or_construct_jit_code_object :
  code_object_id -> code_object_id -> run (bool * string) ->
  (string -> run (option code_object)) -> run (option code_object).
Variable cxx_argument_mapper :
  hcf_kernel_info -> pointer -> pointer -> size_t -> option pointer.

(** Lines 612-628: the configuration the launch is compiled for. *)
Definition sscp_configuration (initial_config : glue_kernel_configuration)
    (hcf_object : hcf_object_id) (kernel_info : hcf_kernel_info)
    (compute_capability : Z) : glue_kernel_configuration :=
  let config := initial_config in
  let config := append_base_configuration config backend_id
                                          value_backend_musa in
  let config := append_base_configuration config compilation_flow
                                          value_sscp in
  let config := append_base_configuration config hcf_object_id_param
                                          (value_object hcf_object) in
  let config := fold_left set_build_flag
                          (get_compilation_flags kernel_info) config in
  let config := fold_left (fun c opt => set_build_option c (fst opt) (snd opt))
                          (get_compilation_options kernel_info) config in
  set_build_option config musa_target_device compute_capability.

(** The closure [jit_compiler], lines 641-660: whether compilation
    succeeded, and the compiled image. *)
Definition sscp_jit_compiler (hcf_object : hcf_object_id)
    (adaptivity_engine : kernel_adaptivity_engine)
    (config : glue_kernel_configuration) : run (bool * string) :=
  let hcf := get_hcf hcf_object in
  let selected := select_image_and_kernels adaptivity_engine in
  let kernel_names := snd selected in
  let selected_image_name := fst selected in
  do r <- jit_compile kernel_names hcf selected_image_name config;
  if negb (is_success (fst r)) then
    do _ <- register_error (fst r);
    ret (false, snd r)
  else ret (true, snd r).

(** The closure [code_object_constructor], lines 662-682.  The message
    ends with the module handle, written by [pointer_to_stream]. *)
Definition sscp_code_object_constructor (hcf_object : hcf_object_id)
    (adaptivity_engine : kernel_adaptivity_engine)
    (config : glue_kernel_configuration) (target_arch_name : string)
    (device : Z) (ptx_image : string) : run (option code_object) :=
  let kernel_names := snd (select_image_and_kernels adaptivity_engine) in
  do exec_obj <- musa_sscp_executable_object
                   ptx_image target_arch_name hcf_object kernel_names device
                   config;
  let r := get_build_result exec_obj in
  do _ <- emit (debug_info
            ("musa_queue: Successfully compiled SSCP kernels to module "
               ++ pointer_to_stream (get_module exec_obj))%string);
  if negb (is_success r) then
    do _ <- register_error r;
    ret None
  else ret (Some exec_obj).

(** Lines 608-686: the adaptivity engine, the configuration and its two
    fingerprints, and the request to the JIT side of the kernel cache. *)
Definition sscp_code_object_request (q : musa_queue)
    (hcf_object : hcf_object_id) (kernel_name : string)
    (num_groups group_size : range3) (local_mem_size : Z)
    (args arg_sizes : pointer) (num_args : size_t)
    (initial_config : glue_kernel_configuration)
    (kernel_info : hcf_kernel_info) : run (option code_object) :=
  let device := get_id (_dev q) in
  let target_arch_name := get_device_arch device in
  let compute_capability := get_compute_capability device in
  let adaptivity_engine :=
    mk_adaptivity_engine hcf_object kernel_name kernel_info num_groups
                         group_size args arg_sizes num_args
                         local_mem_size in
  let config :=
    sscp_configuration initial_config hcf_object kernel_info
                       compute_capability in
  let finalized := finalize_binary_configuration adaptivity_engine config in
  let binary_configuration_id := fst finalized in
  let config := snd finalized in
  let code_object_configuration_id :=
    extend_hash binary_configuration_id runtime_device device in
  get_or_construct_jit_code_object
    code_object_configuration_id binary_configuration_id
    (sscp_jit_compiler hcf_object adaptivity_engine config)
    (sscp_code_object_constructor
       hcf_object adaptivity_engine config target_arch_name device).

Definition submit_sscp_kernel_from_code_object (q : musa_queue)
    (hcf_object : hcf_object_id) (kernel_name : string)
    (num_groups group_size : range3) (local_mem_size : Z)
    (args arg_sizes : pointer) (num_args : size_t)
    (initial_config : glue_kernel_configuration) : run result :=
  if HIPSYCL_WITH_SSCP_COMPILER then
    do _ <- activate_device musart q;
    match get_kernel_info hcf_object kernel_name with
    | None =>
        ret (make_error
               (mk_error_info
                  ("musa_queue: Could not obtain hcf kernel info for kernel "
                     ++ kernel_name)%string
                  None))
    | Some kernel_info =>
        do obj <- sscp_code_object_request
                    q hcf_object kernel_name num_groups group_size
                    local_mem_size args arg_sizes num_args initial_config
                    kernel_info;
        match obj with
        | None => ret construction_failed
        | Some obj =>
            let mumodule := get_module obj in
            do _ <- assert (negb (mumodule =? 0)) "mumodule";
            match cxx_argument_mapper kernel_info args arg_sizes num_args with
            | None =>
                ret (make_error
                       (mk_error_info
                          "musa_queue: Could not map C++ arguments to kernel arguments"
                          None))
            | Some mapped_args =>
                launch_kernel_from_module
                  mudrv mumodule kernel_name num_groups group_size
                  local_mem_size (_stream q) mapped_args
            end
        end
    end
  else ret sscp_not_built.

(** [musa_sscp_code_object_invoker::submit_kernel] *)
Definition sscp_invoker_submit_kernel (_queue : musa_queue)
    (hcf_object : hcf_object_id) (num_groups group_size : range3)
    (local_mem_size : Z) (args arg_sizes : pointer) (num_args : size_t)
    (kernel_name : string) (config : glue_kernel_configuration)
  : run result :=
  submit_sscp_kernel_from_code_object
    _queue hcf_object kernel_name num_groups group_size local_mem_size args
    arg_sizes num_args config.

End Kernels.

(** The vendor calls made on behalf of instrumentation. *)
Definition is_event_call (c : api_call) : bool :=
  match c with
  | activate_device_call _ | musaEventCreate | musaEventRecord _ _ => true
  | _ => false
  end.

(** The entries the guard attaches for a node, given the start and finish
    markers it obtained. *)
Definition guard_instrumentations (node : dag_node_ptr)
    (task_start task_finish : option musa_node_event) : list instrumentation :=
  match node with
  | None => []
  | Some n =>
      (if request_instrumentation_submission_timestamp n
       then [submission_timestamp] else []) ++
      (if request_instrumentation_start_timestamp n
       then [execution_start_timestamp task_start] else []) ++
      (if request_instrumentation_finish_timestamp n
       then [execution_finish_timestamp task_start task_finish] else [])
  end.

(** Whether a node, possibly null, asks for the start or finish timestamp. *)
Definition requests_start (node : dag_node_ptr) : bool :=
  match node with
  | Some n => request_instrumentation_start_timestamp n
  | None => false
  end.

Definition requests_finish (node : dag_node_ptr) : bool :=
  match node with
  | Some n => request_instrumentation_finish_timestamp n
  | None => false
  end.

Definition requests_submission (node : dag_node_ptr) : bool :=
  match node with
  | Some n => request_instrumentation_submission_timestamp n
  | None => false
  end.

(** The SSCP path on the sample device: configurations are not tracked,
    the JIT cache is a parameter of the sample. *)
Definition sample_sscp_submit (enabled : bool)
    (get_kernel_info : hcf_object_id -> string -> option hcf_kernel_info)
    (cache : code_object_id -> code_object_id -> run (bool * string) ->
             (string -> run (option code_object)) ->
             run (option code_object))
    (mapper : hcf_kernel_info -> pointer -> pointer -> size_t ->
              option pointer)
    (kernel_name : string) : run result :=
  submit_sscp_kernel_from_code_object
    device_ok driver_ok sample_hcf sample_extend_hash enabled unit
    (fun c _ _ => c) (fun c _ => c) (fun c _ _ => c) 0%N
    (fun _ => "mp_22") (fun _ => 22)
    get_kernel_info
    (fun _ c => (9%N, c))
    (fun e => ("image", [ae_kernel_name e]))
    (fun _ _ _ _ => ret (make_success, "ptx"))
    (fun _ _ _ _ _ _ => ret two_adders)
    cache mapper
    sample_queue 1%N kernel_name unit_range unit_range 0 0 0 0%N tt.

(** An executable object whose build failed. *)
Definition broken_object : code_object :=
  mk_code_object
    (make_error (mk_error_info "module load failed" None)) 0 [].

(** A launcher whose kernel launch goes wrong: it only registers an error. *)
Definition failing_launcher : backend_kernel_launcher :=
  mk_launcher
    (fun _ _ _ =>
       register_error
         (make_error (mk_error_info "kernel launch failed" None))).

Definition sample_kernel_info : hcf_kernel_info := mk_hcf_kernel_info [] [].

(** ** Properties *)

(** Evaluation of the state-passing combinators. *)
Ltac run_unfold :=
  unfold bind, ret, assert, rt_status, rt_call, drv_call, register_error,
    emit, log_host, add_instrumentation, set_pool, set_heap,
    set_code_objects, get_world, undefined in *.

Lemma musaError_eqb_success (e : musaError_t) :
  musaError_eqb e musaSuccess = true <-> e = musaSuccess.
Proof. destruct e; simpl; split; intro H; congruence. Qed.

Lemma musaError_eqb_not_ready (e : musaError_t) :
  musaError_eqb e musaErrorNotReady = true <-> e = musaErrorNotReady.
Proof. destruct e; simpl; split; intro H; congruence. Qed.

Section QueueLifetime.

Variable musart : list api_call -> api_call -> musaError_t * Z.

(** C7. [query_status] issues exactly one vendor call, the non-blocking
    [musaStreamQuery], and always returns.  When the device reports the
    stream as finished the status becomes complete and the result is
    success; when it reports not-ready the status becomes pending and the
    result is success; for any other report the result is an error that
    carries the reported code. *)
Theorem query_status_outcomes (q : musa_queue) (status : inorder_queue_status)
    (w : world) :
  let err := fst (musart (api_trace w) (musaStreamQuery (_stream q))) in
  exists r st w',
    query_status musart q status w = Returned (r, st) w' /\
    api_trace w' = api_trace w ++ [musaStreamQuery (_stream q)] /\
    (err = musaSuccess -> r = make_success /\ is_complete st = true) /\
    (err = musaErrorNotReady -> r = make_success /\ is_complete st = false) /\
    (err <> musaSuccess -> err <> musaErrorNotReady ->
       exists info, r = make_error info /\
                    ecode info = Some (code_MU_rt err)).
Proof.
  cbv zeta. unfold query_status. run_unfold. simpl.
  destruct (fst (musart (api_trace w) (musaStreamQuery (_stream q))))
    as [| | c]; simpl; do 3 eexists;
    (split; [reflexivity |]); simpl;
    (split; [reflexivity |]); repeat split; try congruence.
  intros _ _. eexists. split; reflexivity.
Qed.

(** C5, as the code has it.  Destroying a queue issues exactly one vendor
    call, [musaStreamDestroy] on the queue's stream, with no synchronisation
    before it; a failure of that call is registered as an error and nothing
    else changes. *)
Theorem destructor_only_destroys_stream (q : musa_queue) (w : world) :
  let err := fst (musart (api_trace w) (musaStreamDestroy (_stream q))) in
  exists w',
    musa_queue_destroy musart q w = Returned tt w' /\
    api_trace w' = api_trace w ++ [musaStreamDestroy (_stream q)] /\
    (err = musaSuccess -> registered_errors w' = registered_errors w) /\
    (err <> musaSuccess ->
       registered_errors w' =
       registered_errors w ++
         [make_error (mk_error_info "musa_queue: Couldn't destroy stream"
                                    (Some (code_MUSA err)))]).
Proof.
  cbv zeta. unfold musa_queue_destroy. run_unfold. simpl.
  destruct (fst (musart (api_trace w) (musaStreamDestroy (_stream q))))
    as [| | c]; simpl; eexists;
    (split; [reflexivity |]); simpl; repeat split; congruence.
Qed.

End QueueLifetime.

(** C5, as stated, fails: the destructor of a queue with a memset still in
    flight issues [musaStreamDestroy] and never [musaStreamSynchronize]. *)
Lemma destructor_does_not_drain :
  exists w',
    musa_queue_destroy device_ok sample_queue busy_world = Returned tt w' /\
    api_trace w' = [musaMemsetAsync 4096 0 1024%N 42; musaStreamDestroy 42] /\
    ~ In (musaStreamSynchronize (_stream sample_queue)) (api_trace w').
Proof.
  eexists. split; [reflexivity |]. split; [reflexivity |].
  simpl. intros [H | [H | []]]; discriminate H.
Qed.

Section Submission.

Variable musart : list api_call -> api_call -> musaError_t * Z.

(** C8. Built for the platform without asynchronous prefetch, a prefetch
    submission issues no vendor call, writes one warning to the diagnostic
    stream, registers no error and returns success. *)
Theorem prefetch_unsupported_is_noop (q : musa_queue) (op : prefetch_operation)
    (node : dag_node_ptr) (w : world) :
  exists w',
    submit_prefetch musart true q op node w = Returned make_success w' /\
    api_trace w' = api_trace w /\
    diagnostics w' =
      diagnostics w ++ [debug_warning "musa_queue: Ignoring prefetch() hint"] /\
    registered_errors w' = registered_errors w /\
    pool_free w' = pool_free w /\
    instrumentations w' = instrumentations w.
Proof.
  unfold submit_prefetch. run_unfold. simpl.
  eexists. split; [reflexivity |]. simpl. repeat split.
Qed.

(** Acquiring a handle always returns: a free handle is reused, otherwise
    the factory is asked for a new one. *)
Lemma obtain_event_returns (device : Z) (w : world) :
  exists r w', obtain_event musart device w = Returned r w'.
Proof.
  unfold obtain_event, musa_event_factory_create. run_unfold. simpl.
  destruct (pool_free w) as [| e rest]; simpl.
  - destruct (musaError_eqb _ _); simpl; eauto.
  - eauto.
Qed.

(** Acquiring a handle registers no error by itself. *)
Lemma obtain_event_errors (device : Z) (w w' : world)
    (r : error_info + musaEvent_t) :
  obtain_event musart device w = Returned r w' ->
  registered_errors w' = registered_errors w.
Proof.
  unfold obtain_event, musa_event_factory_create. run_unfold. simpl.
  destruct (pool_free w) as [| e rest]; simpl.
  - destruct (musaError_eqb _ _); simpl; intros H; inversion H; reflexivity.
  - intros H; inversion H; reflexivity.
Qed.

(** C9. [insert_event] always returns.  If acquiring a handle from the pool
    fails, that error is registered and the null pointer is returned; if
    recording the event on the stream fails, an error carrying the device
    code is registered and the null pointer is returned; a marker is
    returned, and no error registered, exactly when both steps succeeded. *)
Theorem insert_event_null_on_failure (q : musa_queue) (w : world) :
  exists r w',
    insert_event musart q w = Returned r w' /\
    match obtain_event musart (get_id (_dev q)) w with
    | Returned (inl info) _ =>
        r = None /\
        registered_errors w' = registered_errors w ++ [make_error info]
    | Returned (inr evt) w1 =>
        let err := fst (musart (api_trace w1)
                               (musaEventRecord evt (get_stream q))) in
        (err = musaSuccess ->
           r = Some (mk_node_event (get_id (_dev q)) evt) /\
           registered_errors w' = registered_errors w) /\
        (err <> musaSuccess ->
           r = None /\
           registered_errors w' =
             registered_errors w ++
               [make_error
                  (mk_error_info "musa_queue: Couldn't record event"
                                 (Some (code_MUSA err)))])
    | _ => False
    end.
Proof.
  unfold insert_event.
  destruct (obtain_event_returns (get_id (_dev q)) w) as (a & w1 & Hob).
  pose proof (obtain_event_errors _ _ _ _ Hob) as Herr.
  unfold bind at 1. rewrite Hob.
  destruct a as [info | evt].
  - run_unfold. simpl. do 2 eexists. split; [reflexivity |].
    simpl. rewrite Herr. split; reflexivity.
  - run_unfold. simpl.
    destruct (fst (musart (api_trace w1) (musaEventRecord evt (get_stream q))))
      as [| | c]; simpl; do 2 eexists;
      (split; [reflexivity |]); simpl; rewrite ?Herr;
      split; intros; try congruence; split; reflexivity.
Qed.

End Submission.

(** The address chosen by [new] is above every live cell. *)
Lemma fresh_pointer_bound (h : gmap Z dag_node_ptr) :
  0 <= map_fold (fun k _ acc => Z.max k acc) 0 h /\
  forall k, is_Some (h !! k) -> k <= map_fold (fun k _ acc => Z.max k acc) 0 h.
Proof.
  apply (map_fold_weak_ind
           (fun r (m : gmap Z dag_node_ptr) =>
              0 <= r /\ forall k, is_Some (m !! k) -> k <= r)).
  - split; [lia |]. intros k [x Hx]. rewrite lookup_empty in Hx. discriminate.
  - intros i x m r Hi [Hr IH]. split; [lia |].
    intros k Hk. destruct (decide (i = k)) as [-> | Hne]; [lia |].
    rewrite lookup_insert_ne in Hk by assumption.
    specialize (IH k Hk). lia.
Qed.

Lemma fresh_pointer_not_null (h : gmap Z dag_node_ptr) :
  fresh_pointer h <> nullptr.
Proof.
  unfold fresh_pointer, nullptr.
  destruct (fresh_pointer_bound h) as [H0 _]. lia.
Qed.

Lemma fresh_pointer_is_fresh (h : gmap Z dag_node_ptr) :
  h !! fresh_pointer h = None.
Proof.
  destruct (h !! fresh_pointer h) eqn:E; [| reflexivity].
  destruct (fresh_pointer_bound h) as [_ Hb].
  assert (is_Some (h !! fresh_pointer h)) as Hs by (rewrite E; eauto).
  apply Hb in Hs. unfold fresh_pointer in Hs. lia.
Qed.

Section HostSynchronisation.

Variable musart : list api_call -> api_call -> musaError_t * Z.

(** [submit_external_wait_for] always returns; it leaves the node in a new
    heap cell whose non-null address it hands to [musaStreamAddCallback],
    also when registering the callback fails. *)
Lemma submit_external_wait_for_allocates (q : musa_queue)
    (node : dag_node_ptr) (w : world) :
  let user_data := fresh_pointer (heap w) in
  exists r w',
    submit_external_wait_for musart q node w = Returned r w' /\
    user_data <> nullptr /\
    heap w !! user_data = None /\
    heap w' = <[user_data := node]> (heap w) /\
    api_trace w' = api_trace w ++ [musaStreamAddCallback (_stream q) user_data] /\
    host_trace w' = host_trace w ++ [new_node_ptr user_data].
Proof.
  cbv zeta. unfold submit_external_wait_for. run_unfold. simpl.
  pose proof (fresh_pointer_not_null (heap w)) as Hnn.
  destruct (fresh_pointer (heap w) =? nullptr) eqn:E.
  - apply Z.eqb_eq in E. contradiction.
  - simpl.
    destruct (musaError_eqb _ _); simpl; do 2 eexists;
      (split; [reflexivity |]); simpl;
      repeat split; auto using fresh_pointer_is_fresh.
Qed.

End HostSynchronisation.

(** C10. Invoked with the address of a live heap cell that holds a node,
    the host synchronisation callback always returns and frees that cell
    exactly once, whatever status the device reports.  The node's [wait] is
    called if and only if the status is [musaSuccess]; for any other status
    one error carrying the status is registered and [wait] is not called. *)
Theorem callback_frees_once_waits_on_success (stream : musaStream_t)
    (status : musaError_t) (userData : pointer) (n : dag_node) (w : world) :
  userData <> nullptr ->
  heap w !! userData = Some (Some n) ->
  exists w' delta,
    host_synchronization_callback stream status userData w = Returned tt w' /\
    heap w' = delete userData (heap w) /\
    host_trace w' = host_trace w ++ delta /\
    api_trace w' = api_trace w /\
    (status = musaSuccess ->
       delta = [node_wait (Some n); delete_node_ptr userData] /\
       registered_errors w' = registered_errors w) /\
    (status <> musaSuccess ->
       delta = [delete_node_ptr userData] /\
       registered_errors w' =
         registered_errors w ++
           [make_error
              (mk_error_info "musa_queue callback: MUSA returned error code."
                             (Some (code_MUSA status)))]).
Proof.
  intros Hnn Hcell. unfold host_synchronization_callback. run_unfold.
  destruct (userData =? nullptr) eqn:E; [apply Z.eqb_eq in E; contradiction |].
  simpl. destruct status as [| | c]; simpl; repeat (rewrite Hcell; simpl);
    do 2 eexists; (split; [reflexivity |]); simpl;
    repeat split; try congruence; try (rewrite <- app_assoc; reflexivity).
Qed.

(** An instance: the cell at address 16 holds node 3; the device reports an
    error. *)
Lemma callback_frees_once_waits_on_success_witness :
  let n := mk_dag_node 3 false false false in
  let w := {| api_trace := []; registered_errors := []; diagnostics := [];
              pool_free := []; heap := {[ 16 := Some n ]}; host_trace := [];
              instrumentations := []; code_objects := ∅ |} in
  (16 <> nullptr /\ heap w !! 16 = Some (Some n)) /\
  exists w' delta,
    host_synchronization_callback 42 (musaErrorOther 700) 16 w
      = Returned tt w' /\
    heap w' = delete 16 (heap w) /\
    host_trace w' = host_trace w ++ delta /\
    api_trace w' = api_trace w /\
    (musaErrorOther 700 = musaSuccess ->
       delta = [node_wait (Some n); delete_node_ptr 16] /\
       registered_errors w' = registered_errors w) /\
    (musaErrorOther 700 <> musaSuccess ->
       delta = [delete_node_ptr 16] /\
       registered_errors w' =
         registered_errors w ++
           [make_error
              (mk_error_info "musa_queue callback: MUSA returned error code."
                             (Some (code_MUSA (musaErrorOther 700))))]).
Proof.
  intros n w.
  assert (16 <> nullptr) as H1 by (unfold nullptr; lia).
  assert (heap w !! 16 = Some (Some n)) as H2 by reflexivity.
  split; [split; assumption |].
  exact (callback_frees_once_waits_on_success
           42 (musaErrorOther 700) 16 n w H1 H2).
Defined.

Section ElapsedTime.

Variable musart : list api_call -> api_call -> musaError_t * Z.
Variable chrono_round : Z -> Z.

(** C6. The elapsed-time computation guards both markers with assertions.
    When both markers are complete no assertion fires and a duration is
    returned; when either is incomplete the call stops at a failed
    assertion, so there is no result value, error or otherwise. *)
Theorem time_delta_asserts_completion (t0 t1 : dag_node_event) (w : world) :
  (event_is_complete t0 && event_is_complete t1 = true <->
     exists d w',
       musa_event_time_delta musart chrono_round t0 t1 w = Returned d w') /\
  (event_is_complete t0 && event_is_complete t1 = false <->
     exists expr,
       musa_event_time_delta musart chrono_round t0 t1 w
         = AssertionFailed expr).
Proof.
  unfold musa_event_time_delta. run_unfold.
  destruct (event_is_complete t0), (event_is_complete t1); simpl;
    try (destruct (musaError_eqb _ _); simpl);
    (split;
     (split;
      [ intros H; try discriminate H; eauto
      | intros (x & H); try destruct H as (y & H);
        try discriminate H; reflexivity ])).
Qed.

End ElapsedTime.

Section Memcpy.

Variable musart : list api_call -> api_call -> musaError_t * Z.
Variable extract_from_range3_2 : range3 -> size_t * size_t.

Lemma memcpy_calls_app (l1 l2 : list api_call) :
  memcpy_calls (l1 ++ l2) = memcpy_calls l1 ++ memcpy_calls l2.
Proof. apply List.filter_app. Qed.

(** Recording an event issues no copy call and always returns. *)
Lemma insert_event_no_copy (q : musa_queue) (w : world) :
  exists r w',
    insert_event musart q w = Returned r w' /\
    memcpy_calls (api_trace w') = memcpy_calls (api_trace w).
Proof.
  unfold insert_event, obtain_event, musa_event_factory_create.
  run_unfold. simpl.
  destruct (pool_free w) as [| e rest]; simpl;
    repeat (match goal with
            | |- context [musaError_eqb ?a ?b] =>
                destruct (musaError_eqb a b); simpl
            end);
    do 2 eexists; (split; [reflexivity |]); simpl;
    rewrite ?memcpy_calls_app; simpl; rewrite ?app_nil_r; reflexivity.
Qed.

Lemma add_instrumentation_trace (i : instrumentation) (w : world) :
  exists w', add_instrumentation i w = Returned tt w' /\
             api_trace w' = api_trace w.
Proof. eexists. split; reflexivity. Qed.

(** The instrumentation guard issues no copy call, entering or leaving. *)
Lemma guard_construct_no_copy (q : musa_queue) (node : dag_node_ptr)
    (w : world) :
  exists r w',
    guard_construct musart q node w = Returned r w' /\
    memcpy_calls (api_trace w') = memcpy_calls (api_trace w).
Proof.
  unfold guard_construct. destruct node as [n |]; [| run_unfold; eauto].
  destruct (request_instrumentation_submission_timestamp n);
    destruct (request_instrumentation_start_timestamp n);
    unfold bind at 1; simpl; try (run_unfold; simpl; eauto; fail).
  - unfold bind at 1.
    destruct (insert_event_no_copy q
                (match add_instrumentation submission_timestamp w with
                 | Returned _ w1 => w1 | _ => w end))
      as (r & w1 & Hi & Ht).
    simpl in Hi. rewrite Hi. run_unfold. simpl.
    do 2 eexists. split; [reflexivity |]. simpl. exact Ht.
  - unfold bind at 1.
    destruct (insert_event_no_copy q w) as (r & w1 & Hi & Ht).
    unfold ret at 1. rewrite Hi. run_unfold. simpl.
    do 2 eexists. split; [reflexivity |]. simpl. exact Ht.
Qed.

Lemma guard_destruct_no_copy (q : musa_queue) (node : dag_node_ptr)
    (task_start : option musa_node_event) (w : world) :
  exists w',
    guard_destruct musart q node task_start w = Returned tt w' /\
    memcpy_calls (api_trace w') = memcpy_calls (api_trace w).
Proof.
  unfold guard_destruct. destruct node as [n |]; [| run_unfold; eauto].
  destruct (request_instrumentation_finish_timestamp n);
    [| run_unfold; eauto].
  unfold bind at 1.
  destruct (insert_event_no_copy q w) as (r & w1 & Hi & Ht).
  rewrite Hi. destruct task_start; run_unfold; simpl;
    eexists; (split; [reflexivity |]); simpl; exact Ht.
Qed.

Lemma select_copy_kind_supported (s d : device_id) (w : world) :
  platforms_supported s d = true ->
  select_copy_kind s d w = Returned (copy_kind_of s d) w.
Proof.
  unfold platforms_supported, select_copy_kind, copy_kind_of. run_unfold.
  destruct (api_platform_eqb (sw_platform s) api_musa);
    destruct (api_platform_eqb (sw_platform d) api_musa);
    destruct (hardware_platform_eqb (hw_platform s) (hw_platform d));
    destruct (hardware_platform_eqb (hw_platform d) hw_cpu);
    destruct (hardware_platform_eqb (hw_platform s) hw_cpu);
    simpl; intros H; try discriminate H; reflexivity.
Qed.

Lemma memcpy_dimension_range (op : memcpy_operation) :
  (1 <=? memcpy_dimension op) && (memcpy_dimension op <=? 3) = true.
Proof.
  unfold memcpy_dimension, transfer_dimension.
  destruct (entire_buffer op); [reflexivity |].
  destruct (1 <? r0 _)%N; [reflexivity |].
  destruct (1 <? r1 _)%N; reflexivity.
Qed.

(** The contract is what the assertions check: outside of it the function
    stops at a failed assertion. *)
Lemma submit_memcpy_aborts_outside_contract (q : musa_queue)
    (op : memcpy_operation) (node : dag_node_ptr) (w : world) :
  memcpy_contract op = false ->
  exists expr,
    submit_memcpy musart extract_from_range3_2 q op node w
      = AssertionFailed expr.
Proof.
  unfold memcpy_contract, submit_memcpy, platforms_supported,
    select_copy_kind.
  run_unfold.
  destruct (get_access_ptr (source op) =? nullptr); simpl; eauto.
  destruct (get_access_ptr (dest op) =? nullptr); simpl; eauto.
  destruct (api_platform_eqb (sw_platform (get_device (source op))) api_musa);
    destruct (api_platform_eqb (sw_platform (get_device (dest op))) api_musa);
    destruct (hardware_platform_eqb (hw_platform (get_device (source op)))
                                    (hw_platform (get_device (dest op))));
    destruct (hardware_platform_eqb (hw_platform (get_device (dest op)))
                                    hw_cpu);
    destruct (hardware_platform_eqb (hw_platform (get_device (source op)))
                                    hw_cpu);
    simpl; intros H; try discriminate H; eauto.
Qed.

(** Under its contract, [submit_memcpy] returns and issues exactly one copy
    call: the one for the dimension computed in lines 283-300. *)
Lemma submit_memcpy_dispatch (q : musa_queue) (op : memcpy_operation)
    (node : dag_node_ptr) (w : world) :
  memcpy_contract op = true ->
  exists r w',
    submit_memcpy musart extract_from_range3_2 q op node w = Returned r w' /\
    memcpy_calls (api_trace w') =
      memcpy_calls (api_trace w) ++
        [memcpy_call extract_from_range3_2 q op
           (copy_kind_of (get_device (source op)) (get_device (dest op)))
           (memcpy_dimension op)].
Proof.
  unfold memcpy_contract. intros H.
  apply andb_true_iff in H as [H Hp]. apply andb_true_iff in H as [Hs Hd].
  unfold submit_memcpy.
  unfold bind at 1. unfold assert at 1. rewrite Hs.
  unfold bind at 1. unfold assert at 1. rewrite Hd.
  unfold bind at 1. rewrite (select_copy_kind_supported _ _ _ Hp).
  unfold bind at 1. unfold assert at 1. rewrite memcpy_dimension_range.
  unfold bind at 1.
  destruct (guard_construct_no_copy q node w) as (ts & w1 & Hg & Ht1).
  rewrite Hg.
  set (c := memcpy_call _ _ _ _ _).
  unfold bind at 1. unfold rt_status at 1, rt_call at 1.
  unfold bind at 1. unfold ret at 1.
  unfold bind at 1.
  destruct (guard_destruct_no_copy q node ts (log_call c w1))
    as (w2 & Hx & Ht2).
  rewrite Hx. unfold ret. do 2 eexists. split; [reflexivity |].
  rewrite Ht2. simpl. rewrite memcpy_calls_app, Ht1. f_equal.
  unfold c, memcpy_call, memcpy_calls.
  destruct (memcpy_dimension op =? 1); [reflexivity |].
  destruct (memcpy_dimension op =? 2); reflexivity.
Qed.

Lemma range3_eqb_eq (a b : range3) : range3_eqb a b = true <-> a = b.
Proof.
  unfold range3_eqb. destruct a as [a0 a1 a2], b as [b0 b1 b2]. simpl.
  rewrite !andb_true_iff, !N.eqb_eq. split.
  - intros [[-> ->] ->]. reflexivity.
  - intros H. inversion H. auto.
Qed.

Lemma entire_buffer_iff (op : memcpy_operation) :
  entire_buffer op = true <->
  get_num_transferred_elements op = get_allocation_shape (source op) /\
  get_num_transferred_elements op = get_allocation_shape (dest op) /\
  get_access_offset (source op) = id3_zero /\
  get_access_offset (dest op) = id3_zero.
Proof.
  unfold entire_buffer. rewrite !andb_true_iff, !range3_eqb_eq. tauto.
Qed.

(** C2. A copy whose transferred range equals the allocation shape of the
    source and of the destination, with both access offsets zero, is
    dispatched as one flat [musaMemcpyAsync] of the total byte count, for
    every transfer range, however many of its extents exceed 1. *)
Theorem entire_buffer_copy_is_flat (q : musa_queue) (op : memcpy_operation)
    (node : dag_node_ptr) (w : world) :
  get_num_transferred_elements op = get_allocation_shape (source op) ->
  get_num_transferred_elements op = get_allocation_shape (dest op) ->
  get_access_offset (source op) = id3_zero ->
  get_access_offset (dest op) = id3_zero ->
  memcpy_contract op = true ->
  exists r w',
    submit_memcpy musart extract_from_range3_2 q op node w = Returned r w' /\
    memcpy_calls (api_trace w') =
      memcpy_calls (api_trace w) ++
        [musaMemcpyAsync
           (get_access_ptr (dest op)) (get_access_ptr (source op))
           (get_num_transferred_bytes op)
           (copy_kind_of (get_device (source op)) (get_device (dest op)))
           (get_stream q)].
Proof.
  intros H1 H2 H3 H4 Hc.
  destruct (submit_memcpy_dispatch q op node w Hc) as (r & w' & Hr & Ht).
  exists r, w'. split; [exact Hr |]. rewrite Ht.
  assert (entire_buffer op = true) as He by (apply entire_buffer_iff; auto).
  unfold memcpy_dimension. rewrite He. reflexivity.
Qed.

(** C3, as the code has it.  A copy that does not cover the entire buffer
    is dispatched by the transfer range alone, read from its leading
    extent: the 3D call when extent 0 exceeds 1, otherwise the 2D call when
    extent 1 exceeds 1, otherwise the flat 1D call whatever extent 2 is. *)
Theorem partial_copy_dimension_from_leading_extents (q : musa_queue)
    (op : memcpy_operation) (node : dag_node_ptr) (w : world) :
  ~ (get_num_transferred_elements op = get_allocation_shape (source op) /\
     get_num_transferred_elements op = get_allocation_shape (dest op) /\
     get_access_offset (source op) = id3_zero /\
     get_access_offset (dest op) = id3_zero) ->
  memcpy_contract op = true ->
  exists r w' c,
    submit_memcpy musart extract_from_range3_2 q op node w = Returned r w' /\
    memcpy_calls (api_trace w') = memcpy_calls (api_trace w) ++ [c] /\
    let transfer_range := get_num_transferred_elements op in
    ((1 < r0 transfer_range)%N -> dispatch_path c = Some 3) /\
    ((r0 transfer_range <= 1)%N -> (1 < r1 transfer_range)%N ->
       dispatch_path c = Some 2) /\
    ((r0 transfer_range <= 1)%N -> (r1 transfer_range <= 1)%N ->
       dispatch_path c = Some 1).
Proof.
  intros Hn Hc.
  destruct (submit_memcpy_dispatch q op node w Hc) as (r & w' & Hr & Ht).
  do 3 eexists. split; [exact Hr |]. split; [exact Ht |].
  assert (entire_buffer op = false) as He.
  { destruct (entire_buffer op) eqn:E; [| reflexivity].
    apply entire_buffer_iff in E. contradiction. }
  unfold memcpy_dimension, transfer_dimension, memcpy_call. rewrite He.
  cbv zeta. repeat split.
  - intros H. apply N.ltb_lt in H. rewrite H. reflexivity.
  - intros H0 H1. apply N.ltb_ge in H0. apply N.ltb_lt in H1.
    rewrite H0, H1. reflexivity.
  - intros H0 H1. apply N.ltb_ge in H0. apply N.ltb_ge in H1.
    rewrite H0, H1. reflexivity.
Qed.

End Memcpy.

(** An instance of C2: the 4 x 4 x 4 copy of a profiled node, on a device
    where every call succeeds. *)
Lemma entire_buffer_copy_is_flat_witness :
  let op := whole_cube_copy in
  (get_num_transferred_elements op = get_allocation_shape (source op) /\
   get_num_transferred_elements op = get_allocation_shape (dest op) /\
   get_access_offset (source op) = id3_zero /\
   get_access_offset (dest op) = id3_zero /\
   memcpy_contract op = true) /\
  exists r w',
    submit_memcpy device_ok no_extract sample_queue op (Some profiled_node)
                  empty_world = Returned r w' /\
    memcpy_calls (api_trace w') =
      memcpy_calls (api_trace empty_world) ++
        [musaMemcpyAsync
           (get_access_ptr (dest op)) (get_access_ptr (source op))
           (get_num_transferred_bytes op)
           (copy_kind_of (get_device (source op)) (get_device (dest op)))
           (get_stream sample_queue)].
Proof.
  intros op.
  split; [repeat split |].
  exact (entire_buffer_copy_is_flat device_ok no_extract sample_queue op
           (Some profiled_node) empty_world
           eq_refl eq_refl eq_refl eq_refl eq_refl).
Defined.

(** C3, as stated, fails.  Both copies below take a proper sub-range out of
    a 3D allocation of 8 x 8 x 8 and are not copies of the entire buffer.
    In the first only the leading extent of the transfer range, extent 0,
    exceeds 1, and it is dispatched as [musaMemcpy3DAsync], not as the flat
    1D copy.  The second, 1 x 1 x 4, is dispatched as the flat 1D copy
    although the allocation is 3D and the extent a sub-range of it. *)
Lemma leading_extent_only_is_not_flat :
  (let op := leading_column_copy in
   let transfer_range := get_num_transferred_elements op in
   entire_buffer op = false /\
   (1 < r0 transfer_range)%N /\
   r1 transfer_range = 1%N /\ r2 transfer_range = 1%N /\
   exists r w' p,
     submit_memcpy device_ok no_extract sample_queue op None empty_world
       = Returned r w' /\
     api_trace w' = [musaMemcpy3DAsync p 42] /\
     dispatch_path (musaMemcpy3DAsync p 42) <> Some 1) /\
  (let op := trailing_row_copy in
   entire_buffer op = false /\
   get_allocation_shape (source op) = mk_range3 8 8 8 /\
   get_allocation_shape (dest op) = mk_range3 8 8 8 /\
   exists r w' c,
     submit_memcpy device_ok no_extract sample_queue op None empty_world
       = Returned r w' /\
     api_trace w' = [c] /\
     dispatch_path c = Some 1 /\ dispatch_path c <> Some 3).
Proof.
  vm_compute. split.
  - split; [reflexivity |]. split; [reflexivity |].
    split; [reflexivity |]. split; [reflexivity |].
    do 3 eexists. split; [reflexivity |]. split; [reflexivity |].
    discriminate.
  - split; [reflexivity |]. split; [reflexivity |]. split; [reflexivity |].
    do 3 eexists. split; [reflexivity |]. split; [reflexivity |].
    split; [reflexivity | discriminate].
Qed.

(** A sub-range of a 3D allocation whose leading extent is 1 is dispatched
    as a 2D copy. *)
Example plane_patch_is_2D :
  exists r w' c,
    submit_memcpy device_ok no_extract sample_queue plane_patch_copy None
                  empty_world = Returned r w' /\
    api_trace w' = [c] /\ dispatch_path c = Some 2.
Proof. vm_compute. do 3 eexists. repeat split. Qed.

(** An instance of the amended C3: the 4 x 1 x 1 copy. *)
Lemma partial_copy_dimension_from_leading_extents_witness :
  let op := leading_column_copy in
  (~ (get_num_transferred_elements op = get_allocation_shape (source op) /\
      get_num_transferred_elements op = get_allocation_shape (dest op) /\
      get_access_offset (source op) = id3_zero /\
      get_access_offset (dest op) = id3_zero) /\
   memcpy_contract op = true) /\
  exists r w' c,
    submit_memcpy device_ok no_extract sample_queue op None empty_world
      = Returned r w' /\
    memcpy_calls (api_trace w') = memcpy_calls (api_trace empty_world) ++ [c] /\
    let transfer_range := get_num_transferred_elements op in
    ((1 < r0 transfer_range)%N -> dispatch_path c = Some 3) /\
    ((r0 transfer_range <= 1)%N -> (1 < r1 transfer_range)%N ->
       dispatch_path c = Some 2) /\
    ((r0 transfer_range <= 1)%N -> (r1 transfer_range <= 1)%N ->
       dispatch_path c = Some 1).
Proof.
  intros op.
  assert (~ (get_num_transferred_elements op = get_allocation_shape (source op) /\
             get_num_transferred_elements op = get_allocation_shape (dest op) /\
             get_access_offset (source op) = id3_zero /\
             get_access_offset (dest op) = id3_zero)) as Hn.
  { intros [H _]. discriminate H. }
  split; [split; [exact Hn | reflexivity] |].
  exact (partial_copy_dimension_from_leading_extents device_ok no_extract
           sample_queue op None empty_world Hn eq_refl).
Defined.

Section Multipass.

Variable musart : list api_call -> api_call -> musaError_t * Z.
Variable mudrv : list api_call -> api_call -> MUresult * Z.
Variable get_hcf : hcf_object_id -> option hcf_container.
Variable generate_id : kernel_configuration -> code_object_id.
Variable extend_hash :
  code_object_id -> kernel_base_config_parameter -> Z -> code_object_id.
Variable musa_multipass_executable_object :
  hcf_object_id -> string -> string -> Z -> run code_object.

(** The loop of lines 564-569 stops at the first name that contains the
    given one, whatever follows it. *)
Lemma find_full_kernel_name_first (pre post : list string)
    (name backend_kernel_name : string) :
  Forall (fun n => string_contains n backend_kernel_name = false) pre ->
  string_contains name backend_kernel_name = true ->
  find_full_kernel_name (pre ++ name :: post) backend_kernel_name = name.
Proof.
  intros Hpre Hname. induction Hpre as [| n pre Hn _ IH]; simpl.
  - rewrite Hname. reflexivity.
  - rewrite Hn. exact IH.
Qed.

Lemma find_full_kernel_name_none (names : list string)
    (backend_kernel_name : string) :
  Forall (fun n => string_contains n backend_kernel_name = false) names ->
  find_full_kernel_name names backend_kernel_name = EmptyString.
Proof.
  intros H. induction H as [| n names Hn _ IH]; simpl.
  - reflexivity.
  - rewrite Hn. exact IH.
Qed.

(** The cache, one caller at a time: a hit returns the stored object and
    does not run the factory; a miss with a successful build stores the
    object under the key. *)
Lemma get_or_construct_hit (id : code_object_id) (obj : code_object)
    (c : run (option code_object)) (w : world) :
  code_objects w !! id = Some obj ->
  get_or_construct_code_object id c w = Returned (Some obj) w.
Proof.
  intros H. unfold get_or_construct_code_object. run_unfold.
  rewrite H. reflexivity.
Qed.

Lemma get_or_construct_miss_stores (id : code_object_id) (obj : code_object)
    (c : run (option code_object)) (w w1 : world) :
  code_objects w !! id = None ->
  c w = Returned (Some obj) w1 ->
  is_success (get_build_result obj) = true ->
  exists w2,
    get_or_construct_code_object id c w = Returned (Some obj) w2 /\
    code_objects w2 = <[id := obj]> (code_objects w1) /\
    api_trace w2 = api_trace w1.
Proof.
  intros Hmiss Hc Hok. unfold get_or_construct_code_object. run_unfold.
  rewrite Hmiss, Hc, Hok. eexists. repeat split.
Qed.

(** C4, as the code has it.  Once the code object of the selected target
    has been obtained from the cache, the given kernel name is resolved to
    the first supported name, in list order, that contains it, whatever
    follows it in the list.  If that name is not empty the kernel of that
    name is launched, also when later names contain the given name as well.
    Dispatch fails with the name-discovery error in exactly two cases: when
    no supported name contains the given one, and when the first name that
    contains it is the empty string. *)
Theorem multipass_dispatch_takes_first_match (q : musa_queue)
    (hcf_object : hcf_object_id) (backend_kernel_name : string)
    (grid_size block_size : range3) (dynamic_shared_mem : Z)
    (kernel_args : pointer) (w w2 : world) (hcf : hcf_container)
    (root : list (string * hcf_node)) (selected_target : string)
    (other_targets : list string) (obj : code_object) :
  get_hcf hcf_object = Some hcf ->
  root_node hcf = Some root ->
  get_subnodes root = selected_target :: other_targets ->
  get_or_construct_code_object
    (multipass_code_object_id generate_id extend_hash hcf_object
                              selected_target (get_id (_dev q)))
    (code_object_constructor musa_multipass_executable_object root hcf_object
                             selected_target (get_id (_dev q)))
    (log_call (activate_device_call (get_id (_dev q))) w)
    = Returned (Some obj) w2 ->
  get_module obj <> 0 ->
  (forall pre name post,
     supported_backend_kernel_names obj = pre ++ name :: post ->
     Forall (fun n => string_contains n backend_kernel_name = false) pre ->
     string_contains name backend_kernel_name = true ->
     submit_multipass_kernel_from_code_object
       musart mudrv get_hcf generate_id extend_hash
       musa_multipass_executable_object q hcf_object backend_kernel_name
       grid_size block_size dynamic_shared_mem kernel_args w
     = if string_empty name then Returned discovery_error w2
       else launch_kernel_from_module mudrv (get_module obj) name grid_size
              block_size dynamic_shared_mem (_stream q) kernel_args w2) /\
  (Forall (fun n => string_contains n backend_kernel_name = false)
          (supported_backend_kernel_names obj) ->
     submit_multipass_kernel_from_code_object
       musart mudrv get_hcf generate_id extend_hash
       musa_multipass_executable_object q hcf_object backend_kernel_name
       grid_size block_size dynamic_shared_mem kernel_args w
     = Returned discovery_error w2).
Proof.
  intros Hhcf Hroot Htargets Hobj Hmod.
  assert (
    submit_multipass_kernel_from_code_object
      musart mudrv get_hcf generate_id extend_hash
      musa_multipass_executable_object q hcf_object backend_kernel_name
      grid_size block_size dynamic_shared_mem kernel_args w
    = (let full_kernel_name :=
         find_full_kernel_name (supported_backend_kernel_names obj)
                               backend_kernel_name in
       if string_empty full_kernel_name then Returned discovery_error w2
       else launch_kernel_from_module mudrv (get_module obj) full_kernel_name
              grid_size block_size dynamic_shared_mem (_stream q)
              kernel_args w2)) as Heq.
  { unfold submit_multipass_kernel_from_code_object.
    unfold bind at 1. unfold activate_device. run_unfold. simpl.
    rewrite Hhcf, Hroot, Htargets.
    unfold multipass_code_object_id in Hobj. run_unfold.
    rewrite Hobj.
    destruct (get_module obj =? 0) eqn:E;
      [apply Z.eqb_eq in E; contradiction |].
    simpl. destruct (string_empty _); reflexivity. }
  split.
  - intros pre name post Hnames Hpre Hname.
    rewrite Heq, Hnames. cbv zeta.
    rewrite (find_full_kernel_name_first _ _ _ _ Hpre Hname).
    reflexivity.
  - intros Hnone. rewrite Heq. cbv zeta.
    rewrite (find_full_kernel_name_none _ _ Hnone). reflexivity.
Qed.

End Multipass.

(** C4, as stated, fails: the given name [kernel_add] is contained in both
    supported kernel names, and dispatch succeeds by launching the first of
    them. *)
Lemma ambiguous_name_launches_first_match :
  string_contains "kernel_add_float" "kernel_add" = true /\
  string_contains "kernel_add_double" "kernel_add" = true /\
  exists w',
    submit_multipass_kernel_from_code_object
      device_ok driver_ok sample_hcf sample_generate_id sample_extend_hash
      sample_executable_object sample_queue 1%N "kernel_add"
      unit_range unit_range 0 0 empty_world
    = Returned make_success w' /\
    api_trace w' =
      [ activate_device_call 0;
        muModuleGetFunction 77 "kernel_add_float";
        muLaunchKernel 11 1 1 1 1 1 1 0 42 0 ] /\
    supported_backend_kernel_names two_adders =
      ["kernel_add_float"; "kernel_add_double"].
Proof.
  split; [reflexivity |]. split; [reflexivity |].
  vm_compute. eexists. repeat split.
Qed.

(** An instance of the amended C4: the same launch. *)
Lemma multipass_dispatch_takes_first_match_witness :
  let q := sample_queue in
  let root := [("mp_22", mk_hcf_node true (Some "image"))] in
  let w := empty_world in
  let w2 :=
    {| api_trace := [activate_device_call 0];
       registered_errors := []; diagnostics := []; pool_free := [];
       heap := ∅; host_trace := []; instrumentations := [];
       code_objects :=
         <[ multipass_code_object_id sample_generate_id sample_extend_hash
              1%N "mp_22" 0 := two_adders ]> ∅ |} in
  (sample_hcf 1%N = Some (mk_hcf_container (Some root)) /\
   root_node (mk_hcf_container (Some root)) = Some root /\
   get_subnodes root = ["mp_22"] /\
   get_or_construct_code_object
     (multipass_code_object_id sample_generate_id sample_extend_hash 1%N
                               "mp_22" (get_id (_dev q)))
     (code_object_constructor sample_executable_object root 1%N "mp_22"
                              (get_id (_dev q)))
     (log_call (activate_device_call (get_id (_dev q))) w)
     = Returned (Some two_adders) w2 /\
   get_module two_adders <> 0) /\
  (forall pre name post,
     supported_backend_kernel_names two_adders = pre ++ name :: post ->
     Forall (fun n => string_contains n "kernel_add" = false) pre ->
     string_contains name "kernel_add" = true ->
     submit_multipass_kernel_from_code_object
       device_ok driver_ok sample_hcf sample_generate_id sample_extend_hash
       sample_executable_object q 1%N "kernel_add"
       unit_range unit_range 0 0 w
     = if string_empty name then Returned discovery_error w2
       else launch_kernel_from_module driver_ok (get_module two_adders) name
              unit_range unit_range 0 (_stream q) 0 w2) /\
  (Forall (fun n => string_contains n "kernel_add" = false)
          (supported_backend_kernel_names two_adders) ->
     submit_multipass_kernel_from_code_object
       device_ok driver_ok sample_hcf sample_generate_id sample_extend_hash
       sample_executable_object q 1%N "kernel_add"
       unit_range unit_range 0 0 w
     = Returned discovery_error w2).
Proof.
  intros q root w w2.
  assert (get_module two_adders <> 0) as Hm by (simpl; lia).
  assert (get_or_construct_code_object
     (multipass_code_object_id sample_generate_id sample_extend_hash 1%N
                               "mp_22" (get_id (_dev q)))
     (code_object_constructor sample_executable_object root 1%N "mp_22"
                              (get_id (_dev q)))
     (log_call (activate_device_call (get_id (_dev q))) w)
     = Returned (Some two_adders) w2) as Hobj by reflexivity.
  split; [repeat split; assumption |].
  exact (multipass_dispatch_takes_first_match
           device_ok driver_ok sample_hcf sample_generate_id
           sample_extend_hash sample_executable_object q 1%N "kernel_add"
           unit_range unit_range 0 0 w w2 (mk_hcf_container (Some root))
           root "mp_22" [] two_adders eq_refl eq_refl eq_refl Hobj Hm).
Defined.

(** ** Runs on concrete inputs *)

(** On a device where every call fails, [insert_event] returns the null
    pointer and registers the failure of the event factory. *)
Example insert_event_on_broken_device :
  exists w',
    insert_event device_broken sample_queue empty_world = Returned None w' /\
    api_trace w' = [activate_device_call 0; musaEventCreate] /\
    registered_errors w' =
      [make_error
         (mk_error_info "musa_event_factory: Couldn't create event"
                        (Some (code_MUSA (musaErrorOther 999))))].
Proof. vm_compute. eexists. repeat split. Qed.

(** A free handle of the pool is reused instead of creating a new one. *)
Example insert_event_reuses_free_handle :
  let w := {| api_trace := []; registered_errors := []; diagnostics := [];
              pool_free := [5; 6]; heap := ∅; host_trace := [];
              instrumentations := []; code_objects := ∅ |} in
  exists w',
    insert_event device_ok sample_queue w
      = Returned (Some (mk_node_event 0 5)) w' /\
    api_trace w' = [musaEventRecord 5 42] /\
    pool_free w' = [6].
Proof. vm_compute. eexists. repeat split. Qed.

(** A profiled memset records a start and a finish event around the fill. *)
Example profiled_memset_trace :
  exists w',
    submit_memset device_ok sample_queue
                  (mk_memset_operation 4096 0 64%N) (Some profiled_node)
                  empty_world = Returned make_success w' /\
    api_trace w' =
      [ activate_device_call 0; musaEventCreate; musaEventRecord 7 42;
        musaMemsetAsync 4096 0 64%N 42;
        activate_device_call 0; musaEventCreate; musaEventRecord 7 42 ] /\
    instrumentations w' =
      [ submission_timestamp;
        execution_start_timestamp (Some (mk_node_event 0 7));
        execution_finish_timestamp (Some (mk_node_event 0 7))
                                   (Some (mk_node_event 0 7)) ].
Proof. vm_compute. eexists. repeat split. Qed.

(** [wait] is the operation that synchronises with the stream. *)
Example wait_synchronises :
  exists w',
    wait device_ok sample_queue busy_world = Returned make_success w' /\
    api_trace w' = [musaMemsetAsync 4096 0 1024%N 42; musaStreamSynchronize 42].
Proof. vm_compute. eexists. repeat split. Qed.

(** With asynchronous prefetch available the hint reaches the device. *)
Example prefetch_supported_reaches_device :
  exists w',
    submit_prefetch device_ok false sample_queue
                    (mk_prefetch_operation 4096 64%N true) None empty_world
      = Returned make_success w' /\
    api_trace w' = [musaMemPrefetchAsync 4096 64%N musaCpuDeviceId 42].
Proof. vm_compute. eexists. repeat split. Qed.

(** A named kernel is passed by its tag, an unnamed one by its body. *)
Example invoker_kernel_name_cases :
  invoker_kernel_name "my_kernel" "body" = "my_kernel" /\
  invoker_kernel_name "__hipsycl_unnamed_kernel_7" "body" = "body".
Proof. split; reflexivity. Qed.

(** ** Further properties of the queue *)

Section KernelLaunch.

Variable mudrv : list api_call -> api_call -> MUresult * Z.

(** [launch_kernel_from_module] always returns.  When the kernel cannot be
    extracted from the module, the error carries the driver code and
    [muLaunchKernel] is not called; otherwise the kernel is launched once
    and the result is success exactly when the launch call succeeds. *)
Theorem launch_kernel_outcomes (module : MUmodule) (kernel_name : string)
    (grid_size block_size : range3) (shared_memory : Z)
    (stream : musaStream_t) (kernel_args : pointer) (w : world) :
  let get := muModuleGetFunction module kernel_name in
  let got := mudrv (api_trace w) get in
  let launch :=
    muLaunchKernel (snd got)
      (to_unsigned (r0 grid_size)) (to_unsigned (r1 grid_size))
      (to_unsigned (r2 grid_size))
      (to_unsigned (r0 block_size)) (to_unsigned (r1 block_size))
      (to_unsigned (r2 block_size))
      shared_memory stream kernel_args in
  let launched := mudrv (api_trace w ++ [get]) launch in
  exists r w',
    launch_kernel_from_module mudrv module kernel_name grid_size block_size
      shared_memory stream kernel_args w = Returned r w' /\
    registered_errors w' = registered_errors w /\
    (fst got <> MUSA_SUCCESS ->
       api_trace w' = api_trace w ++ [get] /\
       r = make_error
             (mk_error_info "musa_queue: could not extract kernel from module"
                            (Some (code_MU (fst got))))) /\
    (fst got = MUSA_SUCCESS ->
       api_trace w' = api_trace w ++ [get; launch] /\
       (fst launched = MUSA_SUCCESS -> r = make_success) /\
       (fst launched <> MUSA_SUCCESS ->
          r = make_error
                (mk_error_info
                   "musa_queue: could not submit kernel from module"
                   (Some (code_MU (fst launched)))))).
Proof.
  cbv zeta. unfold launch_kernel_from_module. run_unfold. simpl.
  destruct (fst (mudrv (api_trace w) (muModuleGetFunction module kernel_name)))
    as [| c1] eqn:E1; simpl.
  - match goal with
    | |- context [fst (mudrv ?t ?c)] =>
        destruct (fst (mudrv t c)) as [| c2] eqn:E2
    end; simpl; do 2 eexists; (split; [reflexivity |]); simpl;
      (split; [reflexivity |]); (split; [intros H; congruence |]);
      intros _; rewrite <- app_assoc; simpl; (split; [reflexivity |]);
      split; intros H; congruence.
  - do 2 eexists. split; [reflexivity |]. simpl.
    split; [reflexivity |]. split; [intros _; split; reflexivity |].
    intros H; congruence.
Qed.

(** The extents of a launch are cast to [unsigned]: two launches whose grid
    and block extents agree modulo 2^32 are the same launch. *)
Theorem launch_extents_wrap (module : MUmodule) (kernel_name : string)
    (grid_size block_size grid_size' block_size' : range3)
    (shared_memory : Z) (stream : musaStream_t) (kernel_args : pointer)
    (w : world) :
  (r0 grid_size mod 2 ^ 32 = r0 grid_size' mod 2 ^ 32)%N ->
  (r1 grid_size mod 2 ^ 32 = r1 grid_size' mod 2 ^ 32)%N ->
  (r2 grid_size mod 2 ^ 32 = r2 grid_size' mod 2 ^ 32)%N ->
  (r0 block_size mod 2 ^ 32 = r0 block_size' mod 2 ^ 32)%N ->
  (r1 block_size mod 2 ^ 32 = r1 block_size' mod 2 ^ 32)%N ->
  (r2 block_size mod 2 ^ 32 = r2 block_size' mod 2 ^ 32)%N ->
  launch_kernel_from_module mudrv module kernel_name grid_size block_size
    shared_memory stream kernel_args w
  = launch_kernel_from_module mudrv module kernel_name grid_size' block_size'
      shared_memory stream kernel_args w.
Proof.
  intros G0 G1 G2 B0 B1 B2. unfold launch_kernel_from_module, to_unsigned.
  rewrite G0, G1, G2, B0, B1, B2. reflexivity.
Qed.

End KernelLaunch.

(** An instance: a grid of 2^32 groups in its leading extent is launched
    like a grid of 0 groups. *)
Lemma launch_extents_wrap_witness :
  launch_kernel_from_module driver_ok 77 "kernel_add_float"
    (mk_range3 (2 ^ 32) 1 1) unit_range 0 42 0 empty_world
  = launch_kernel_from_module driver_ok 77 "kernel_add_float"
      (mk_range3 0 1 1) unit_range 0 42 0 empty_world.
Proof.
  exact (launch_extents_wrap driver_ok 77 "kernel_add_float"
           (mk_range3 (2 ^ 32) 1 1) unit_range (mk_range3 0 1 1) unit_range
           0 42 0 empty_world
           eq_refl eq_refl eq_refl eq_refl eq_refl eq_refl).
Defined.

(** *** Name resolution *)

Lemma prefix_spec (needle hay : string) :
  String.prefix needle hay = true <->
  exists post, hay = (needle ++ post)%string.
Proof.
  revert hay. induction needle as [| a needle IH]; intros hay.
  - split; [intros _; exists hay; reflexivity |].
    intros _. destruct hay; reflexivity.
  - destruct hay as [| b hay]; simpl.
    + split; [discriminate | intros [post H]; discriminate H].
    + destruct (Ascii.ascii_dec a b) as [-> | Hne].
      * rewrite IH. split; intros [post H]; exists post.
        -- rewrite H. reflexivity.
        -- inversion H. reflexivity.
      * split; [discriminate |].
        intros [post H]. inversion H. congruence.
Qed.

(** [string_contains] is the substring test of [std::string::find]: it
    holds exactly when the needle occurs in the haystack as a contiguous
    block. *)
Lemma string_contains_spec (hay needle : string) :
  string_contains hay needle = true <->
  exists pre post, hay = (pre ++ needle ++ post)%string.
Proof.
  induction hay as [| a hay IH]; cbn [string_contains].
  - rewrite orb_false_r, prefix_spec. split.
    + intros [post H]. exists EmptyString, post. exact H.
    + intros (pre & post & H). destruct pre as [| b pre]; simpl in H.
      * exists post. exact H.
      * discriminate H.
  - rewrite orb_true_iff, prefix_spec, IH. split.
    + intros [[post H] | (pre & post & H)].
      * exists EmptyString, post. exact H.
      * exists (String a pre), post. simpl. rewrite H. reflexivity.
    + intros (pre & post & H). destruct pre as [| b pre]; simpl in H.
      * left. exists post. exact H.
      * right. inversion H. exists pre, post. reflexivity.
Qed.

(** The name the multipass path resolves to is never made up: it is empty,
    or it is one of the supported names and contains the given name.  It is
    empty only when no supported name contains the given name, or when the
    empty string is itself a supported name. *)
Theorem find_full_kernel_name_sound (names : list string)
    (backend_kernel_name : string) :
  let full_kernel_name := find_full_kernel_name names backend_kernel_name in
  (full_kernel_name = EmptyString \/
   (In full_kernel_name names /\
    exists pre post,
      full_kernel_name = (pre ++ backend_kernel_name ++ post)%string)) /\
  (full_kernel_name = EmptyString ->
   Forall (fun n => string_contains n backend_kernel_name = false) names \/
   In EmptyString names).
Proof.
  cbv zeta. induction names as [| n names [IH1 IH2]]; simpl.
  - split; [left; reflexivity | intros _; left; constructor].
  - destruct (string_contains n backend_kernel_name) eqn:E.
    + split.
      * right. split; [left; reflexivity |].
        apply string_contains_spec. exact E.
      * intros ->. right. left. reflexivity.
    + split.
      * destruct IH1 as [H | [H1 H2]]; [left; exact H |].
        right. split; [right; exact H1 | exact H2].
      * intros H. destruct (IH2 H) as [H' | H'].
        -- left. constructor; assumption.
        -- right. right. exact H'.
Qed.

(** An empty kernel name is contained in every name, so resolution picks
    the first supported kernel, whatever it is. *)
Theorem empty_kernel_name_resolves_to_first (name : string)
    (rest : list string) :
  find_full_kernel_name (name :: rest) EmptyString = name.
Proof.
  simpl. assert (string_contains name EmptyString = true) as H.
  { apply string_contains_spec. exists EmptyString, name. reflexivity. }
  rewrite H. reflexivity.
Qed.

(** *** The instrumentation guard around an operation *)

Section Instrumentation.

Variable musart : list api_call -> api_call -> musaError_t * Z.

(** What [insert_event] does to the world: it returns, issues only
    event-related calls, and touches neither the instrumentation list nor
    the heap. *)
Lemma insert_event_effect (q : musa_queue) (w : world) :
  exists r w' calls,
    insert_event musart q w = Returned r w' /\
    api_trace w' = api_trace w ++ calls /\
    forallb is_event_call calls = true /\
    instrumentations w' = instrumentations w.
Proof.
  unfold insert_event, obtain_event, musa_event_factory_create.
  run_unfold. simpl.
  destruct (pool_free w) as [| e rest]; simpl;
    repeat (match goal with
            | |- context [musaError_eqb ?a ?b] =>
                destruct (musaError_eqb a b); simpl
            end);
    do 3 eexists; (split; [reflexivity |]); simpl;
    rewrite <- ?app_assoc; simpl;
    (split; [reflexivity |]); split; reflexivity.
Qed.

Lemma guard_construct_effect (q : musa_queue) (node : dag_node_ptr)
    (w : world) :
  exists ts w1 pre,
    guard_construct musart q node w = Returned ts w1 /\
    api_trace w1 = api_trace w ++ pre /\
    forallb is_event_call pre = true /\
    (requests_start node = false -> pre = [] /\ ts = None) /\
    forall tf,
      instrumentations w1 ++
        (if requests_finish node
         then [execution_finish_timestamp ts tf] else [])
      = instrumentations w ++ guard_instrumentations node ts tf.
Proof.
  unfold guard_construct, guard_instrumentations, requests_start,
    requests_finish.
  destruct node as [n |].
  2:{ exists None, w, []. run_unfold. rewrite !app_nil_r. repeat split. }
  destruct (request_instrumentation_start_timestamp n).
  - unfold bind at 1.
    set (c0 := if request_instrumentation_submission_timestamp n
               then add_instrumentation submission_timestamp else ret tt).
    assert (exists w0, c0 w = Returned tt w0 /\ api_trace w0 = api_trace w /\
              instrumentations w0 =
                instrumentations w ++
                  (if request_instrumentation_submission_timestamp n
                   then [submission_timestamp] else [])) as (w0 & H0 & T0 & I0).
    { unfold c0. destruct (request_instrumentation_submission_timestamp n);
        run_unfold; eexists; (split; [reflexivity |]); simpl;
        rewrite ?app_nil_r; split; reflexivity. }
    rewrite H0. unfold bind at 1.
    destruct (insert_event_effect q w0) as (ts & w1 & pre & Hi & Ht & He & Hn).
    rewrite Hi. run_unfold. simpl.
    exists ts. eexists. exists pre. split; [reflexivity |]. simpl.
    rewrite Ht, T0. repeat split; try assumption; try discriminate.
    intros tf. rewrite Hn, I0, <- !app_assoc. reflexivity.
  - unfold bind at 1.
    destruct (request_instrumentation_submission_timestamp n);
      run_unfold; simpl; exists None; eexists; exists [];
      (split; [reflexivity |]); simpl; rewrite ?app_nil_r;
      repeat split; intros tf; rewrite <- ?app_assoc; reflexivity.
Qed.

Lemma guard_destruct_effect (q : musa_queue) (node : dag_node_ptr)
    (ts : option musa_node_event) (w : world) :
  exists tf w2 post,
    guard_destruct musart q node ts w = Returned tt w2 /\
    api_trace w2 = api_trace w ++ post /\
    forallb is_event_call post = true /\
    (requests_finish node = false -> post = []) /\
    instrumentations w2 =
      instrumentations w ++
        (if requests_finish node
         then [execution_finish_timestamp ts tf] else []).
Proof.
  unfold guard_destruct, requests_finish.
  destruct node as [n |].
  2:{ exists None, w, []. run_unfold. rewrite !app_nil_r. repeat split. }
  destruct (request_instrumentation_finish_timestamp n).
  - unfold bind at 1.
    destruct (insert_event_effect q w) as (tf & w1 & post & Hi & Ht & He & Hn).
    rewrite Hi. exists tf.
    destruct ts; run_unfold; simpl; eexists; exists post;
      (split; [reflexivity |]); simpl; rewrite Hn;
      repeat split; try assumption; discriminate.
  - exists None, w, []. run_unfold. rewrite !app_nil_r. repeat split.
Qed.

(** The guard around one vendor call: the calls made for the start marker,
    the call itself, the calls made for the finish marker. *)
Lemma guarded_call_effect (q : musa_queue) (node : dag_node_ptr)
    (c : api_call) (w : world) :
  exists ts tf w1 w3 pre post,
    guard_construct musart q node w = Returned ts w1 /\
    guard_destruct musart q node ts (log_call c w1) = Returned tt w3 /\
    api_trace w1 = api_trace w ++ pre /\
    api_trace w3 = api_trace w ++ pre ++ [c] ++ post /\
    forallb is_event_call pre = true /\
    forallb is_event_call post = true /\
    (requests_start node = false -> pre = []) /\
    (requests_finish node = false -> post = []) /\
    instrumentations w3 =
      instrumentations w ++ guard_instrumentations node ts tf /\
    (requests_start node = false -> ts = None).
Proof.
  destruct (guard_construct_effect q node w)
    as (ts & w1 & pre & Hg & Ht1 & He1 & Hs & Hi1).
  destruct (guard_destruct_effect q node ts (log_call c w1))
    as (tf & w3 & post & Hd & Ht3 & He3 & Hf & Hi3).
  exists ts, tf, w1, w3, pre, post.
  split; [exact Hg |]. split; [exact Hd |]. split; [exact Ht1 |].
  split; [rewrite Ht3; simpl; rewrite Ht1, <- !app_assoc; reflexivity |].
  split; [exact He1 |]. split; [exact He3 |].
  split; [intros H; apply Hs; exact H |]. split; [exact Hf |].
  split; [rewrite Hi3; simpl; apply Hi1 |].
  intros H; apply Hs; exact H.
Qed.

(** A memset submission always returns.  It issues the fill between the
    calls that record the start marker and those that record the finish
    marker, and only event-related calls besides; with no start (finish)
    timestamp requested nothing precedes (follows) the fill.  The result
    is success exactly when the fill itself is accepted, and otherwise
    carries the device code: a failure to record a marker never fails the
    submission. *)
Theorem submit_memset_bracketed (q : musa_queue) (op : memset_operation)
    (node : dag_node_ptr) (w : world) :
  let fill := musaMemsetAsync (ms_pointer op) (ms_pattern op)
                              (ms_num_bytes op) (get_stream q) in
  exists r w' pre post,
    submit_memset musart q op node w = Returned r w' /\
    api_trace w' = api_trace w ++ pre ++ [fill] ++ post /\
    forallb is_event_call pre = true /\
    forallb is_event_call post = true /\
    (requests_start node = false -> pre = []) /\
    (requests_finish node = false -> post = []) /\
    let err := fst (musart (api_trace w ++ pre) fill) in
    (err = musaSuccess -> r = make_success) /\
    (err <> musaSuccess ->
       r = make_error (mk_error_info "musa_queue: musaMemsetAsync() failed"
                                     (Some (code_MUSA err)))).
Proof.
  cbv zeta.
  set (fill := musaMemsetAsync (ms_pointer op) (ms_pattern op)
                               (ms_num_bytes op) (get_stream q)).
  destruct (guarded_call_effect q node fill w)
    as (ts & tf & w1 & w3 & pre & post & Hg & Hd & Ht1 & Ht3 & He1 & He3
        & Hs & Hf & _ & _).
  unfold submit_memset. fold fill.
  unfold bind at 1. rewrite Hg.
  unfold bind at 1. unfold rt_status, rt_call. unfold bind at 1.
  unfold ret at 1. unfold bind at 1. rewrite Hd.
  rewrite Ht1.
  destruct (fst (musart (api_trace w ++ pre) fill)) as [| | c] eqn:E;
    simpl; unfold ret; do 2 eexists; exists pre, post;
    (split; [reflexivity |]); (split; [exact Ht3 |]);
    (split; [exact He1 |]); (split; [exact He3 |]);
    (split; [exact Hs |]); (split; [exact Hf |]);
    split; intros H; congruence.
Qed.


(** Instrumentation that is not requested costs nothing: for a null node,
    or a node without timestamp hints, a memset submission issues the fill
    and nothing else, and changes nothing but the trace. *)
Theorem submit_memset_uninstrumented (q : musa_queue) (op : memset_operation)
    (node : dag_node_ptr) (w : world) :
  requests_submission node = false ->
  requests_start node = false ->
  requests_finish node = false ->
  let fill := musaMemsetAsync (ms_pointer op) (ms_pattern op)
                              (ms_num_bytes op) (get_stream q) in
  exists r,
    submit_memset musart q op node w = Returned r (log_call fill w) /\
    (r = make_success <-> fst (musart (api_trace w) fill) = musaSuccess).
Proof.
  intros H1 H2 H3. cbv zeta. unfold submit_memset, guard_construct,
    guard_destruct.
  destruct node as [n |]; simpl in H1, H2, H3;
    [rewrite H1, H2, H3 |]; run_unfold; simpl;
    destruct (fst (musart (api_trace w) _)) as [| | c];
    simpl; eexists; (split; [reflexivity |]);
    split; intros H; congruence.
Qed.

(** With asynchronous prefetch available, a prefetch submission always
    returns and issues one [musaMemPrefetchAsync] between the marker calls:
    towards [musaCpuDeviceId] when the target is the host, otherwise
    towards the device of the queue.  The result is success exactly when
    that call is accepted. *)
Theorem submit_prefetch_bracketed (q : musa_queue) (op : prefetch_operation)
    (node : dag_node_ptr) (w : world) :
  let hint :=
    musaMemPrefetchAsync (pf_pointer op) (pf_num_bytes op)
      (if pf_target_is_host op then musaCpuDeviceId
       else to_device (get_id (_dev q)))
      (get_stream q) in
  exists r w' pre post,
    submit_prefetch musart false q op node w = Returned r w' /\
    api_trace w' = api_trace w ++ pre ++ [hint] ++ post /\
    forallb is_event_call pre = true /\
    forallb is_event_call post = true /\
    (requests_start node = false -> pre = []) /\
    (requests_finish node = false -> post = []) /\
    let err := fst (musart (api_trace w ++ pre) hint) in
    (err = musaSuccess -> r = make_success) /\
    (err <> musaSuccess ->
       r = make_error
             (mk_error_info "musa_queue: musaMemPrefetchAsync() failed"
                            (Some (code_MUSA err)))).
Proof.
  cbv zeta.
  set (hint := musaMemPrefetchAsync _ _ _ _).
  destruct (guarded_call_effect q node hint w)
    as (ts & tf & w1 & w3 & pre & post & Hg & Hd & Ht1 & Ht3 & He1 & He3
        & Hs & Hf & _ & _).
  unfold submit_prefetch. change (negb false) with true. cbv iota.
  fold hint.
  unfold bind at 1. rewrite Hg.
  unfold bind at 1. unfold rt_status, rt_call. unfold bind at 1.
  unfold ret at 1. unfold bind at 1. rewrite Hd.
  rewrite Ht1.
  destruct (fst (musart (api_trace w ++ pre) hint)) as [| | c] eqn:E;
    simpl; unfold ret; do 2 eexists; exists pre, post;
    (split; [reflexivity |]); (split; [exact Ht3 |]);
    (split; [exact He1 |]); (split; [exact He3 |]);
    (split; [exact Hs |]); (split; [exact Hf |]);
    split; intros H; congruence.
Qed.

End Instrumentation.

(** *** Copies *)

Section MemcpyResult.

Variable musart : list api_call -> api_call -> musaError_t * Z.
Variable extract_from_range3_2 : range3 -> size_t * size_t.

(** [submit_memcpy] returns exactly for the operations within its
    contract: both access pointers non-null, and a device-to-device copy on
    one hardware platform, a device-to-host copy, or a host-to-device copy.
    For every other operation it stops at a failed assertion. *)
Theorem submit_memcpy_returns_iff_contract (q : musa_queue)
    (op : memcpy_operation) (node : dag_node_ptr) (w : world) :
  (memcpy_contract op = true <->
     exists r w',
       submit_memcpy musart extract_from_range3_2 q op node w
         = Returned r w') /\
  (memcpy_contract op = false <->
     exists expr,
       submit_memcpy musart extract_from_range3_2 q op node w
         = AssertionFailed expr).
Proof.
  destruct (memcpy_contract op) eqn:Hc.
  - destruct (submit_memcpy_dispatch musart extract_from_range3_2
                q op node w Hc) as (r & w' & Hr & _).
    split; split; intros H; try discriminate H; eauto.
    destruct H as [e He]. rewrite Hr in He. discriminate He.
  - destruct (submit_memcpy_aborts_outside_contract musart
                extract_from_range3_2 q op node w Hc) as (e & He).
    split; split; intros H; try discriminate H; eauto.
    destruct H as (r & w' & Hr). rewrite He in Hr. discriminate Hr.
Qed.

(** Within its contract a copy submission issues the copy call between the
    marker calls, and its result is success exactly when the copy call is
    accepted; otherwise it carries the device code.  Failures of the
    instrumentation do not reach the result. *)
Theorem submit_memcpy_result (q : musa_queue) (op : memcpy_operation)
    (node : dag_node_ptr) (w : world) :
  memcpy_contract op = true ->
  let copy :=
    memcpy_call extract_from_range3_2 q op
      (copy_kind_of (get_device (source op)) (get_device (dest op)))
      (memcpy_dimension op) in
  exists r w' pre post,
    submit_memcpy musart extract_from_range3_2 q op node w = Returned r w' /\
    api_trace w' = api_trace w ++ pre ++ [copy] ++ post /\
    forallb is_event_call pre = true /\
    forallb is_event_call post = true /\
    let err := fst (musart (api_trace w ++ pre) copy) in
    (err = musaSuccess -> r = make_success) /\
    (err <> musaSuccess ->
       r = make_error (mk_error_info "musa_queue: Couldn't submit memcpy"
                                     (Some (code_MUSA err)))).
Proof.
  unfold memcpy_contract. intros H. cbv zeta.
  apply andb_true_iff in H as [H Hp]. apply andb_true_iff in H as [Hs Hd].
  set (copy := memcpy_call _ _ _ _ _).
  destruct (guarded_call_effect musart q node copy w)
    as (ts & tf & w1 & w3 & pre & post & Hg & Hx & Ht1 & Ht3 & He1 & He3
        & _ & _ & _ & _).
  unfold submit_memcpy.
  unfold bind at 1. unfold assert at 1. rewrite Hs.
  unfold bind at 1. unfold assert at 1. rewrite Hd.
  unfold bind at 1.
  rewrite (select_copy_kind_supported _ _ _ Hp).
  unfold bind at 1. unfold assert at 1. rewrite memcpy_dimension_range.
  unfold bind at 1. rewrite Hg. fold copy.
  unfold bind at 1. unfold rt_status at 1, rt_call at 1.
  unfold bind at 1. unfold ret at 1.
  unfold bind at 1. rewrite Hx. rewrite Ht1.
  destruct (fst (musart (api_trace w ++ pre) copy)) as [| | c] eqn:E;
    simpl; unfold ret; do 2 eexists; exists pre, post;
    (split; [reflexivity |]); (split; [exact Ht3 |]);
    (split; [exact He1 |]); (split; [exact He3 |]);
    split; intros H; congruence.
Qed.

End MemcpyResult.

(** An instance: the partial 1 x 2 x 2 copy of a profiled node on a device
    that rejects every call. *)
Lemma submit_memcpy_result_witness :
  let op := plane_patch_copy in
  let q := sample_queue in
  memcpy_contract op = true /\
  let copy :=
    memcpy_call no_extract q op
      (copy_kind_of (get_device (source op)) (get_device (dest op)))
      (memcpy_dimension op) in
  exists r w' pre post,
    submit_memcpy device_broken no_extract q op (Some profiled_node)
                  empty_world = Returned r w' /\
    api_trace w' = api_trace empty_world ++ pre ++ [copy] ++ post /\
    forallb is_event_call pre = true /\
    forallb is_event_call post = true /\
    let err := fst (device_broken (api_trace empty_world ++ pre) copy) in
    (err = musaSuccess -> r = make_success) /\
    (err <> musaSuccess ->
       r = make_error (mk_error_info "musa_queue: Couldn't submit memcpy"
                                     (Some (code_MUSA err)))).
Proof.
  intros op q. split; [reflexivity |].
  exact (submit_memcpy_result device_broken no_extract q op
           (Some profiled_node) empty_world eq_refl).
Defined.

(** *** Waiting on the host *)

(** The effect of the callback on a live cell holding a node, in one
    equation for the host trace. *)
Lemma callback_effect (stream : musaStream_t) (status : musaError_t)
    (userData : pointer) (n : dag_node) (w : world) :
  userData <> nullptr ->
  heap w !! userData = Some (Some n) ->
  exists w',
    host_synchronization_callback stream status userData w = Returned tt w' /\
    heap w' = delete userData (heap w) /\
    host_trace w' =
      host_trace w ++
        (if musaError_eqb status musaSuccess
         then [node_wait (Some n)] else []) ++
        [delete_node_ptr userData].
Proof.
  intros Hnn Hcell. unfold host_synchronization_callback. run_unfold.
  destruct (userData =? nullptr) eqn:E; [apply Z.eqb_eq in E; contradiction |].
  simpl. destruct status as [| | c]; simpl; repeat (rewrite Hcell; simpl);
    eexists; (split; [reflexivity |]); simpl;
    split; try reflexivity; rewrite <- ?app_assoc; reflexivity.
Qed.

Section ExternalWait.

Variable musart : list api_call -> api_call -> musaError_t * Z.

(** Round trip of the user data: the cell that [submit_external_wait_for]
    allocates for a node is the one the callback frees, so after the
    callback has run, with any status, the heap is what it was before the
    submission.  In between, the node's [wait] is called exactly when the
    status is [musaSuccess]. *)
Theorem external_wait_round_trip (q : musa_queue) (n : dag_node)
    (status : musaError_t) (w : world) :
  let user_data := fresh_pointer (heap w) in
  exists r w1 w2,
    submit_external_wait_for musart q (Some n) w = Returned r w1 /\
    api_trace w1 =
      api_trace w ++ [musaStreamAddCallback (_stream q) user_data] /\
    host_synchronization_callback (_stream q) status user_data w1
      = Returned tt w2 /\
    heap w2 = heap w /\
    host_trace w2 =
      host_trace w ++ [new_node_ptr user_data] ++
        (if musaError_eqb status musaSuccess
         then [node_wait (Some n)] else []) ++
        [delete_node_ptr user_data].
Proof.
  cbv zeta.
  destruct (submit_external_wait_for_allocates musart q (Some n) w)
    as (r & w1 & Hs & Hnn & Hfresh & Hheap & Htrace & Hhost).
  assert (heap w1 !! fresh_pointer (heap w) = Some (Some n)) as Hcell.
  { rewrite Hheap. apply lookup_insert_eq. }
  destruct (callback_effect
              (_stream q) status (fresh_pointer (heap w)) n w1 Hnn Hcell)
    as (w2 & Hc & Hh2 & Ht2).
  exists r, w1, w2. split; [exact Hs |]. split; [exact Htrace |].
  split; [exact Hc |]. split.
  - rewrite Hh2, Hheap. apply delete_insert_id. exact Hfresh.
  - rewrite Ht2, Hhost, <- !app_assoc. reflexivity.
Qed.

(** When registering the callback fails, the submission returns an error
    that carries the device code, and the cell allocated for the node is
    left on the heap: the error path does not free it. *)
Theorem external_wait_registration_failure (q : musa_queue)
    (node : dag_node_ptr) (w : world) :
  let user_data := fresh_pointer (heap w) in
  let err :=
    fst (musart (api_trace w) (musaStreamAddCallback (_stream q) user_data)) in
  err <> musaSuccess ->
  exists w',
    submit_external_wait_for musart q node w
      = Returned
          (make_error
             (mk_error_info "musa_queue: Couldn't submit stream callback"
                            (Some (code_MUSA err)))) w' /\
    heap w !! user_data = None /\
    heap w' !! user_data = Some node /\
    host_trace w' = host_trace w ++ [new_node_ptr user_data].
Proof.
  cbv zeta. intros Herr.
  pose proof (fresh_pointer_not_null (heap w)) as Hnn.
  unfold submit_external_wait_for. run_unfold. simpl.
  destruct (fresh_pointer (heap w) =? nullptr) eqn:E;
    [apply Z.eqb_eq in E; contradiction |].
  simpl.
  destruct (fst (musart (api_trace w) _)) as [| | c];
    [contradiction | |]; simpl; eexists;
    (split; [reflexivity |]); simpl;
    (split; [apply fresh_pointer_is_fresh |]);
    (split; [apply lookup_insert_eq | reflexivity]).
Qed.

End ExternalWait.

(** An instance: on a device that rejects every call. *)
Lemma external_wait_registration_failure_witness :
  let q := sample_queue in
  let node := Some profiled_node in
  let w := empty_world in
  let user_data := fresh_pointer (heap w) in
  let err :=
    fst (device_broken (api_trace w)
                       (musaStreamAddCallback (_stream q) user_data)) in
  err <> musaSuccess /\
  exists w',
    submit_external_wait_for device_broken q node w
      = Returned
          (make_error
             (mk_error_info "musa_queue: Couldn't submit stream callback"
                            (Some (code_MUSA err)))) w' /\
    heap w !! user_data = None /\
    heap w' !! user_data = Some node /\
    host_trace w' = host_trace w ++ [new_node_ptr user_data].
Proof.
  intros q node w user_data err.
  assert (err <> musaSuccess) as H by (unfold err; simpl; discriminate).
  split; [exact H |].
  exact (external_wait_registration_failure device_broken q node w H).
Defined.

(** *** Elapsed time on a failing device *)

Section ElapsedTimeDevice.

Variable musart : list api_call -> api_call -> musaError_t * Z.
Variable chrono_round : Z -> Z.

(** For two complete markers the elapsed-time computation issues one
    [musaEventElapsedTime] on their handles, in the order given.  When the
    device accepts it, the rounded reading is returned and no error is
    registered; when the device rejects it, the error is only registered:
    the call still returns a duration. *)
Theorem time_delta_device_failure_is_registered (t0 t1 : dag_node_event)
    (w : world) :
  event_is_complete t0 = true ->
  event_is_complete t1 = true ->
  let query := musaEventElapsedTime (get_event t0) (get_event t1) in
  let reply := musart (api_trace w) query in
  exists d w',
    musa_event_time_delta musart chrono_round t0 t1 w = Returned d w' /\
    api_trace w' = api_trace w ++ [query] /\
    (fst reply = musaSuccess ->
       d = chrono_round (snd reply) /\
       registered_errors w' = registered_errors w) /\
    (fst reply <> musaSuccess ->
       registered_errors w' =
         registered_errors w ++
           [make_error
              (mk_error_info
                 "musa_event_time_delta: musaEventElapsedTime() failed"
                 (Some (code_MUSA (fst reply))))]).
Proof.
  intros H0 H1. cbv zeta. unfold musa_event_time_delta. run_unfold.
  rewrite H0, H1. simpl.
  destruct (fst (musart (api_trace w) _)) as [| | c]; simpl;
    do 2 eexists; (split; [reflexivity |]); simpl;
    (split; [reflexivity |]); split; intros H; try congruence;
    try (split; reflexivity); reflexivity.
Qed.

End ElapsedTimeDevice.

(** An instance: two complete markers on a device that rejects the call. *)
Lemma time_delta_device_failure_is_registered_witness :
  let t0 := mk_dag_node_event true 5 in
  let t1 := mk_dag_node_event true 6 in
  let w := empty_world in
  (event_is_complete t0 = true /\ event_is_complete t1 = true) /\
  let query := musaEventElapsedTime (get_event t0) (get_event t1) in
  let reply := device_broken (api_trace w) query in
  exists d w',
    musa_event_time_delta device_broken (fun ms => ms) t0 t1 w
      = Returned d w' /\
    api_trace w' = api_trace w ++ [query] /\
    (fst reply = musaSuccess ->
       d = snd reply /\ registered_errors w' = registered_errors w) /\
    (fst reply <> musaSuccess ->
       registered_errors w' =
         registered_errors w ++
           [make_error
              (mk_error_info
                 "musa_event_time_delta: musaEventElapsedTime() failed"
                 (Some (code_MUSA (fst reply))))]).
Proof.
  intros t0 t1 w. split; [split; reflexivity |].
  exact (time_delta_device_failure_is_registered device_broken
           (fun ms => ms) t0 t1 w eq_refl eq_refl).
Defined.

(** *** The multipass path before the launch *)

Section MultipassFailures.

Variable musart : list api_call -> api_call -> musaError_t * Z.
Variable mudrv : list api_call -> api_call -> MUresult * Z.
Variable get_hcf : hcf_object_id -> option hcf_container.
Variable generate_id : kernel_configuration -> code_object_id.
Variable extend_hash :
  code_object_id -> kernel_base_config_parameter -> Z -> code_object_id.
Variable musa_multipass_executable_object :
  hcf_object_id -> string -> string -> Z -> run code_object.

(** What the multipass path does with the container it looks up: an
    unknown HCF object is an error result, reported after the device has
    been activated and before anything else happens; a container without
    root node, or with no target below the root, is a failed assertion. *)
Theorem multipass_container_checks (q : musa_queue)
    (hcf_object : hcf_object_id) (backend_kernel_name : string)
    (grid_size block_size : range3) (dynamic_shared_mem : Z)
    (kernel_args : pointer) (w : world) :
  let submit :=
    submit_multipass_kernel_from_code_object
      musart mudrv get_hcf generate_id extend_hash
      musa_multipass_executable_object q hcf_object backend_kernel_name
      grid_size block_size dynamic_shared_mem kernel_args w in
  (get_hcf hcf_object = None ->
     submit =
       Returned
         (make_error
            (mk_error_info "musa_queue: Could not access requested HCF object"
                           None))
         (log_call (activate_device_call (get_id (_dev q))) w)) /\
  (get_hcf hcf_object = Some (mk_hcf_container None) ->
     submit = AssertionFailed "hcf->root_node()") /\
  (get_hcf hcf_object = Some (mk_hcf_container (Some [])) ->
     submit = AssertionFailed "!available_targets.empty()").
Proof.
  cbv zeta. unfold submit_multipass_kernel_from_code_object, activate_device.
  run_unfold. simpl.
  repeat split; intros H; rewrite H; reflexivity.
Qed.

(** The constructor closure never hands a failed build to the cache: an
    object it returns reports a successful build. *)
Theorem code_object_constructor_only_built (root : list (string * hcf_node))
    (hcf_object : hcf_object_id) (selected_target : string) (device : Z)
    (obj : code_object) (w w' : world) :
  code_object_constructor musa_multipass_executable_object root hcf_object
    selected_target device w = Returned (Some obj) w' ->
  is_success (get_build_result obj) = true.
Proof.
  unfold code_object_constructor.
  destruct (get_subnode root selected_target) as [tn |];
    [| run_unfold; discriminate].
  destruct (has_binary_data_attached tn); simpl;
    [| run_unfold; discriminate].
  destruct (binary_attachment tn) as [source_code |];
    [| run_unfold; simpl; discriminate].
  unfold bind at 1.
  destruct (musa_multipass_executable_object _ _ _ _ _) as [o w1 | |];
    try discriminate.
  destruct (is_success (get_build_result o)) eqn:E; simpl.
  - run_unfold. intros H. inversion H. subst. exact E.
  - run_unfold. simpl. discriminate.
Qed.

(** When the first target of the container has no usable binary (none
    attached, or the attachment cannot be extracted) and the cache holds no
    object for the configuration, dispatch fails with the construction
    error: nothing is stored in the cache, no executable object is built and
    no driver call is made. *)
Theorem multipass_target_without_binary (q : musa_queue)
    (hcf_object : hcf_object_id) (backend_kernel_name : string)
    (grid_size block_size : range3) (dynamic_shared_mem : Z)
    (kernel_args : pointer) (w : world)
    (selected_target : string) (tn : hcf_node)
    (others : list (string * hcf_node)) :
  get_hcf hcf_object =
    Some (mk_hcf_container (Some ((selected_target, tn) :: others))) ->
  code_objects w !!
    multipass_code_object_id generate_id extend_hash hcf_object
                             selected_target (get_id (_dev q)) = None ->
  has_binary_data_attached tn = false \/ binary_attachment tn = None ->
  exists w',
    submit_multipass_kernel_from_code_object
      musart mudrv get_hcf generate_id extend_hash
      musa_multipass_executable_object q hcf_object backend_kernel_name
      grid_size block_size dynamic_shared_mem kernel_args w
    = Returned construction_failed w' /\
    code_objects w' = code_objects w /\
    api_trace w' = api_trace w ++ [activate_device_call (get_id (_dev q))] /\
    registered_errors w' = registered_errors w.
Proof.
  intros Hhcf Hmiss Hbin.
  unfold submit_multipass_kernel_from_code_object, activate_device.
  unfold multipass_code_object_id in Hmiss.
  run_unfold. simpl. rewrite Hhcf. simpl.
  unfold get_or_construct_code_object, code_object_constructor.
  run_unfold. simpl. rewrite Hmiss. simpl.
  rewrite String.eqb_refl.
  destruct (has_binary_data_attached tn) eqn:Hb; simpl.
  - destruct Hbin as [Hbin | Hbin]; [discriminate |].
    rewrite Hbin. simpl. eexists. split; [reflexivity |]. repeat split.
  - eexists. split; [reflexivity |]. repeat split.
Qed.

End MultipassFailures.

(** An instance: the constructor on the sample container. *)
Lemma code_object_constructor_only_built_witness :
  let root := [("mp_22", mk_hcf_node true (Some "image"))] in
  code_object_constructor sample_executable_object root 1%N "mp_22" 0
    empty_world = Returned (Some two_adders) empty_world /\
  is_success (get_build_result two_adders) = true.
Proof.
  intros root.
  assert (code_object_constructor sample_executable_object root 1%N "mp_22" 0
            empty_world = Returned (Some two_adders) empty_world) as H
    by reflexivity.
  split; [exact H |].
  exact (code_object_constructor_only_built sample_executable_object root
           1%N "mp_22" 0 two_adders empty_world empty_world H).
Defined.

(** An instance: a container whose only target has no binary attached. *)
Lemma multipass_target_without_binary_witness :
  let q := sample_queue in
  let w := empty_world in
  let tn := mk_hcf_node false None in
  let hcf := fun _ : N =>
    Some (mk_hcf_container (Some [("mp_22", tn)])) in
  (hcf 1%N = Some (mk_hcf_container (Some [("mp_22", tn)])) /\
   code_objects w !!
     multipass_code_object_id sample_generate_id sample_extend_hash 1%N
                              "mp_22" (get_id (_dev q)) = None /\
   (has_binary_data_attached tn = false \/ binary_attachment tn = None)) /\
  exists w',
    submit_multipass_kernel_from_code_object
      device_ok driver_ok hcf sample_generate_id sample_extend_hash
      sample_executable_object q 1%N "kernel_add"
      unit_range unit_range 0 0 w
    = Returned construction_failed w' /\
    code_objects w' = code_objects w /\
    api_trace w' = api_trace w ++ [activate_device_call (get_id (_dev q))] /\
    registered_errors w' = registered_errors w.
Proof.
  intros q w tn hcf.
  assert (code_objects w !!
            multipass_code_object_id sample_generate_id sample_extend_hash
              1%N "mp_22" (get_id (_dev q)) = None) as Hmiss by reflexivity.
  assert (has_binary_data_attached tn = false \/ binary_attachment tn = None)
    as Hbin by (left; reflexivity).
  split; [repeat split; assumption |].
  exact (multipass_target_without_binary device_ok driver_ok hcf
           sample_generate_id sample_extend_hash sample_executable_object
           q 1%N "kernel_add" unit_range unit_range 0 0 w "mp_22" tn []
           eq_refl Hmiss Hbin).
Defined.

(** *** Kernel submission through the launcher *)

Section SubmitKernel.

Variable musart : list api_call -> api_call -> musaError_t * Z.

(** Without a launcher for this backend the submission fails right after
    activating the device: no instrumentation is attached and no marker is
    recorded, whatever the node requests, and nothing is launched. *)
Theorem submit_kernel_without_launcher (q : musa_queue)
    (op : kernel_operation) (node : dag_node_ptr) (w : world) :
  find_launcher_musa op = None ->
  submit_kernel musart q op node w
  = Returned
      (make_error
         (mk_error_info "Could not obtain backend kernel launcher" None))
      (log_call (activate_device_call (get_id (_dev q))) w).
Proof.
  intros H. unfold submit_kernel, activate_device. run_unfold. simpl.
  rewrite H. reflexivity.
Qed.

(** With a launcher, the result of the submission is success as soon as
    the launcher returns, whatever the launcher did: the launcher returns
    nothing, so a launch that went wrong inside it can only show as a
    registered error, never in the result. *)
Theorem submit_kernel_result_ignores_launcher (q : musa_queue)
    (op : kernel_operation) (node : dag_node_ptr) (w : world)
    (l : backend_kernel_launcher) :
  find_launcher_musa op = Some l ->
  (forall w0, exists w1,
     invoke l q node (get_kernel_configuration op) w0 = Returned tt w1) ->
  exists w',
    submit_kernel musart q op node w = Returned make_success w'.
Proof.
  intros Hl Hinv. unfold submit_kernel, activate_device.
  unfold bind at 1. unfold bind at 1. unfold rt_call at 1. unfold ret at 1.
  rewrite Hl.
  unfold bind at 1.
  destruct (guard_construct_effect musart q node
              (log_call (activate_device_call (get_id (_dev q))) w))
    as (ts & w1 & pre & Hg & _).
  rewrite Hg. unfold bind at 1.
  destruct (Hinv w1) as (w2 & Hi). rewrite Hi.
  unfold bind at 1.
  destruct (guard_destruct_effect musart q node ts w2)
    as (tf & w3 & post & Hd & _).
  rewrite Hd. unfold ret. eauto.
Qed.

End SubmitKernel.

(** An instance: no launcher, on a node that requests every timestamp. *)
Lemma submit_kernel_without_launcher_witness :
  let op := mk_kernel_operation None [] in
  find_launcher_musa op = None /\
  submit_kernel device_ok sample_queue op (Some profiled_node) empty_world
  = Returned
      (make_error
         (mk_error_info "Could not obtain backend kernel launcher" None))
      (log_call (activate_device_call (get_id (_dev sample_queue)))
                empty_world).
Proof.
  intros op. split; [reflexivity |].
  exact (submit_kernel_without_launcher device_ok sample_queue op
           (Some profiled_node) empty_world eq_refl).
Defined.

(** An instance: a launcher that only registers a launch error. *)
Lemma submit_kernel_result_ignores_launcher_witness :
  let op := mk_kernel_operation (Some failing_launcher) [] in
  (find_launcher_musa op = Some failing_launcher /\
   forall w0, exists w1,
     invoke failing_launcher sample_queue None
            (get_kernel_configuration op) w0 = Returned tt w1) /\
  exists w',
    submit_kernel device_ok sample_queue op None empty_world
      = Returned make_success w'.
Proof.
  intros op.
  assert (forall w0, exists w1,
            invoke failing_launcher sample_queue None
                   (get_kernel_configuration op) w0 = Returned tt w1) as Hinv.
  { intros w0. eexists. reflexivity. }
  split; [split; [reflexivity | exact Hinv] |].
  exact (submit_kernel_result_ignores_launcher device_ok sample_queue op
           None empty_world failing_launcher eq_refl Hinv).
Defined.

(** The launcher's error is registered, and the submission still reports
    success. *)
Example submit_kernel_hides_launch_error :
  exists w',
    submit_kernel device_ok sample_queue
      (mk_kernel_operation (Some failing_launcher) []) None empty_world
      = Returned make_success w' /\
    registered_errors w' =
      [make_error (mk_error_info "kernel launch failed" None)].
Proof. vm_compute. eexists. split; reflexivity. Qed.

(** *** The invokers and the SSCP path *)

Section Invokers.

Variable musart : list api_call -> api_call -> musaError_t * Z.
Variable mudrv : list api_call -> api_call -> MUresult * Z.
Variable get_hcf : hcf_object_id -> option hcf_container.
Variable generate_id : kernel_configuration -> code_object_id.
Variable extend_hash :
  code_object_id -> kernel_base_config_parameter -> Z -> code_object_id.
Variable musa_multipass_executable_object :
  hcf_object_id -> string -> string -> Z -> run code_object.

(** The multipass invoker dispatches a kernel under its body name exactly
    when [__hipsycl_unnamed_kernel] occurs anywhere in the name tag, and
    under the name tag otherwise. *)
Theorem multipass_invoker_kernel_name (q : musa_queue)
    (hcf_object : hcf_object_id) (num_groups group_size : range3)
    (local_mem_size : Z) (args : pointer)
    (kernel_name_tag kernel_body_name : string) :
  let dispatch name :=
    submit_multipass_kernel_from_code_object
      musart mudrv get_hcf generate_id extend_hash
      musa_multipass_executable_object q hcf_object name
      num_groups group_size local_mem_size args in
  let invoked :=
    multipass_invoker_submit_kernel
      musart mudrv get_hcf generate_id extend_hash
      musa_multipass_executable_object (Some q) hcf_object
      num_groups group_size local_mem_size args
      kernel_name_tag kernel_body_name in
  ((exists pre post,
      kernel_name_tag =
        (pre ++ "__hipsycl_unnamed_kernel" ++ post)%string) ->
   invoked = dispatch kernel_body_name) /\
  (~ (exists pre post,
        kernel_name_tag =
          (pre ++ "__hipsycl_unnamed_kernel" ++ post)%string) ->
   invoked = dispatch kernel_name_tag).
Proof.
  cbv zeta. unfold multipass_invoker_submit_kernel.
  destruct (string_contains kernel_name_tag "__hipsycl_unnamed_kernel")
    eqn:E; simpl.
  - split; [reflexivity |]. intros H. exfalso. apply H.
    apply string_contains_spec. exact E.
  - split; [| reflexivity]. intros H.
    apply string_contains_spec in H. congruence.
Qed.

Variable HIPSYCL_WITH_SSCP_COMPILER : bool.
Variable glue_kernel_configuration : Type.
Variable append_base_configuration :
  glue_kernel_configuration -> kernel_base_config_parameter -> config_value ->
  glue_kernel_configuration.
Variable set_build_flag :
  glue_kernel_configuration -> N -> glue_kernel_configuration.
Variable set_build_option :
  glue_kernel_configuration -> N -> Z -> glue_kernel_configuration.
Variable musa_target_device : N.
Variable get_device_arch : Z -> string.
Variable get_compute_capability : Z -> Z.
Variable get_kernel_info : hcf_object_id -> string -> option hcf_kernel_info.
Variable finalize_binary_configuration :
  kernel_adaptivity_engine -> glue_kernel_configuration ->
  code_object_id * glue_kernel_configuration.
Variable select_image_and_kernels :
  kernel_adaptivity_engine -> string * list string.
Variable jit_compile :
  list string -> option hcf_container -> string -> glue_kernel_configuration ->
  run (result * string).
Variable musa_sscp_executable_object :
  string -> string -> hcf_object_id -> list string -> Z ->
  glue_kernel_configuration -> run code_object.
Variable get_or_construct_jit_code_object :
  code_object_id -> code_object_id -> run (bool * string) ->
  (string -> run (option code_object)) -> run (option code_object).
Variable cxx_argument_mapper :
  hcf_kernel_info -> pointer -> pointer -> size_t -> option pointer.

Local Abbreviation submit_sscp enabled :=
  (submit_sscp_kernel_from_code_object
     musart mudrv get_hcf extend_hash enabled glue_kernel_configuration
     append_base_configuration set_build_flag set_build_option
     musa_target_device get_device_arch get_compute_capability
     get_kernel_info finalize_binary_configuration select_image_and_kernels
     jit_compile musa_sscp_executable_object get_or_construct_jit_code_object
     cxx_argument_mapper).

Local Abbreviation request :=
  (sscp_code_object_request
     get_hcf extend_hash glue_kernel_configuration
     append_base_configuration set_build_flag set_build_option
     musa_target_device get_device_arch get_compute_capability
     finalize_binary_configuration select_image_and_kernels
     jit_compile musa_sscp_executable_object
     get_or_construct_jit_code_object).

(** Built without the SSCP compiler, an SSCP launch is refused with an
    error result and has no effect at all: the device is not activated,
    the kernel information is not looked up, the cache is not asked. *)
Theorem sscp_refused_without_compiler (q : musa_queue)
    (hcf_object : hcf_object_id) (kernel_name : string)
    (num_groups group_size : range3) (local_mem_size : Z)
    (args arg_sizes : pointer) (num_args : size_t)
    (initial_config : glue_kernel_configuration) (w : world) :
  submit_sscp false q hcf_object kernel_name num_groups group_size
    local_mem_size args arg_sizes num_args initial_config w
  = Returned sscp_not_built w.
Proof. reflexivity. Qed.

(** A kernel the HCF cache has no information about is refused with an
    error that names the kernel; by then only the device has been
    activated, and the kernel cache has not been asked. *)
Theorem sscp_unknown_kernel (q : musa_queue)
    (hcf_object : hcf_object_id) (kernel_name : string)
    (num_groups group_size : range3) (local_mem_size : Z)
    (args arg_sizes : pointer) (num_args : size_t)
    (initial_config : glue_kernel_configuration) (w : world) :
  get_kernel_info hcf_object kernel_name = None ->
  submit_sscp true q hcf_object kernel_name num_groups group_size
    local_mem_size args arg_sizes num_args initial_config w
  = Returned
      (make_error
         (mk_error_info
            ("musa_queue: Could not obtain hcf kernel info for kernel "
               ++ kernel_name)%string
            None))
      (log_call (activate_device_call (get_id (_dev q))) w).
Proof.
  intros H. unfold submit_sscp_kernel_from_code_object, activate_device.
  run_unfold. simpl. rewrite H. reflexivity.
Qed.

(** Once the kernel information is found, the outcome of an SSCP launch
    follows the cache and the argument mapper: no code object means the
    construction error; a code object without an argument mapping means the
    mapping error, and nothing is launched; otherwise the kernel is
    launched from the object's module under exactly the given name, with
    the mapped arguments. *)
Theorem sscp_launches_given_name (q : musa_queue)
    (hcf_object : hcf_object_id) (kernel_name : string)
    (num_groups group_size : range3) (local_mem_size : Z)
    (args arg_sizes : pointer) (num_args : size_t)
    (initial_config : glue_kernel_configuration) (w w2 : world)
    (kernel_info : hcf_kernel_info) (obj : option code_object) :
  get_kernel_info hcf_object kernel_name = Some kernel_info ->
  request q hcf_object kernel_name num_groups group_size local_mem_size
          args arg_sizes num_args initial_config kernel_info
          (log_call (activate_device_call (get_id (_dev q))) w)
    = Returned obj w2 ->
  (forall o, obj = Some o -> get_module o <> 0) ->
  submit_sscp true q hcf_object kernel_name num_groups group_size
    local_mem_size args arg_sizes num_args initial_config w
  = match obj with
    | None => Returned construction_failed w2
    | Some o =>
        match cxx_argument_mapper kernel_info args arg_sizes num_args with
        | None =>
            Returned
              (make_error
                 (mk_error_info
                    "musa_queue: Could not map C++ arguments to kernel arguments"
                    None))
              w2
        | Some mapped_args =>
            launch_kernel_from_module
              mudrv (get_module o) kernel_name num_groups group_size
              local_mem_size (_stream q) mapped_args w2
        end
    end.
Proof.
  intros Hinfo Hreq Hmod.
  unfold submit_sscp_kernel_from_code_object, activate_device.
  unfold bind at 1. unfold bind at 1. unfold rt_call at 1. unfold ret at 1.
  rewrite Hinfo. unfold bind at 1. rewrite Hreq.
  destruct obj as [o |]; [| reflexivity].
  specialize (Hmod o eq_refl).
  unfold bind at 1. unfold assert.
  destruct (get_module o =? 0) eqn:E; [apply Z.eqb_eq in E; contradiction |].
  simpl. destruct (cxx_argument_mapper _ _ _ _); reflexivity.
Qed.

(** The constructor closure of the SSCP path writes its "successfully
    compiled" message, ending with the module handle, before it looks at
    the build result: the message is emitted for a failed build as well.  A
    failed build is then registered as an error and no object is
    returned. *)
Theorem sscp_constructor_reports_success_first (hcf_object : hcf_object_id)
    (adaptivity_engine : kernel_adaptivity_engine)
    (config : glue_kernel_configuration) (target_arch_name : string)
    (device : Z) (ptx_image : string) (exec_obj : code_object)
    (w w1 : world) :
  musa_sscp_executable_object
    ptx_image target_arch_name hcf_object
    (snd (select_image_and_kernels adaptivity_engine)) device config w
    = Returned exec_obj w1 ->
  exists w',
    sscp_code_object_constructor
      glue_kernel_configuration select_image_and_kernels
      musa_sscp_executable_object hcf_object adaptivity_engine config
      target_arch_name device ptx_image w
    = Returned (if is_success (get_build_result exec_obj)
                then Some exec_obj else None) w' /\
    diagnostics w' =
      diagnostics w1 ++
        [debug_info
           ("musa_queue: Successfully compiled SSCP kernels to module "
              ++ pointer_to_stream (get_module exec_obj))%string] /\
    registered_errors w' =
      registered_errors w1 ++
        (if is_success (get_build_result exec_obj)
         then [] else [get_build_result exec_obj]).
Proof.
  intros H. unfold sscp_code_object_constructor.
  unfold bind at 1. rewrite H. run_unfold. simpl.
  destruct (is_success (get_build_result exec_obj)); simpl;
    eexists; (split; [reflexivity |]); simpl;
    rewrite ?app_nil_r; split; reflexivity.
Qed.

End Invokers.

(** An instance: no kernel information for [kernel_add]. *)
Lemma sscp_unknown_kernel_witness :
  let info : hcf_object_id -> string -> option hcf_kernel_info :=
    fun _ _ => None in
  info 1%N "kernel_add" = None /\
  sample_sscp_submit true info (fun _ _ _ _ => ret None) (fun _ _ _ _ => None)
    "kernel_add" empty_world
  = Returned
      (make_error
         (mk_error_info
            ("musa_queue: Could not obtain hcf kernel info for kernel "
               ++ "kernel_add")%string
            None))
      (log_call (activate_device_call (get_id (_dev sample_queue)))
                empty_world).
Proof.
  intros info. split; [reflexivity |].
  unfold sample_sscp_submit.
  apply sscp_unknown_kernel. reflexivity.
Defined.

(** An instance: the cache hands out [two_adders] and the arguments map;
    the kernel is launched as [kernel_add], the name given, not as one of
    the names the object supports. *)
Lemma sscp_launches_given_name_witness :
  let info : hcf_object_id -> string -> option hcf_kernel_info :=
    fun _ _ => Some sample_kernel_info in
  let w2 := log_call (activate_device_call 0) empty_world in
  (info 1%N "kernel_add" = Some sample_kernel_info /\
   (forall o, Some two_adders = Some o -> get_module o <> 0)) /\
  sample_sscp_submit true info (fun _ _ _ _ => ret (Some two_adders))
    (fun _ args _ _ => Some args) "kernel_add" empty_world
  = launch_kernel_from_module driver_ok (get_module two_adders) "kernel_add"
      unit_range unit_range 0 (_stream sample_queue) 0 w2.
Proof.
  intros info w2.
  assert (forall o, Some two_adders = Some o -> get_module o <> 0) as Hm.
  { intros o H. inversion H. simpl. lia. }
  split; [split; [reflexivity | exact Hm] |].
  unfold sample_sscp_submit.
  refine (sscp_launches_given_name
            device_ok driver_ok sample_hcf sample_extend_hash unit
            (fun c _ _ => c) (fun c _ => c) (fun c _ _ => c) 0%N
            (fun _ => "mp_22") (fun _ => 22) info
            (fun _ c => (9%N, c))
            (fun e => ("image", [ae_kernel_name e]))
            (fun _ _ _ _ => ret (make_success, "ptx"))
            (fun _ _ _ _ _ _ => ret two_adders)
            (fun _ _ _ _ => ret (Some two_adders))
            (fun _ args _ _ => Some args)
            sample_queue 1%N "kernel_add" unit_range unit_range 0 0 0 0%N tt
            empty_world w2 sample_kernel_info (Some two_adders)
            eq_refl eq_refl Hm).
Defined.

(** An instance: the executable object reports a failed build. *)
Lemma sscp_constructor_reports_success_first_witness :
  let engine :=
    mk_adaptivity_engine 1%N "kernel_add" sample_kernel_info unit_range
                         unit_range 0 0 0%N 0 in
  let select : kernel_adaptivity_engine -> string * list string :=
    fun e => ("image", [ae_kernel_name e]) in
  let build : string -> string -> hcf_object_id -> list string -> Z ->
              unit -> run code_object :=
    fun _ _ _ _ _ _ => ret broken_object in
  build "ptx" "mp_22" 1%N (snd (select engine)) 0 tt empty_world
    = Returned broken_object empty_world /\
  exists w',
    sscp_code_object_constructor unit select build 1%N engine tt "mp_22" 0
                                 "ptx" empty_world
    = Returned (if is_success (get_build_result broken_object)
                then Some broken_object else None) w' /\
    diagnostics w' =
      diagnostics empty_world ++
        [debug_info
           ("musa_queue: Successfully compiled SSCP kernels to module "
              ++ pointer_to_stream (get_module broken_object))%string] /\
    registered_errors w' =
      registered_errors empty_world ++
        (if is_success (get_build_result broken_object)
         then [] else [get_build_result broken_object]).
Proof.
  intros engine select build. split; [reflexivity |].
  exact (sscp_constructor_reports_success_first unit select build 1%N engine
           tt "mp_22" 0 "ptx" broken_object empty_world empty_world eq_refl).
Defined.

(** An instance: a memset for a node that carries no timestamp hint. *)
Lemma submit_memset_uninstrumented_witness :
  let node := Some (mk_dag_node 2 false false false) in
  let op := mk_memset_operation 4096 0 64%N in
  (requests_submission node = false /\
   requests_start node = false /\
   requests_finish node = false) /\
  let fill := musaMemsetAsync (ms_pointer op) (ms_pattern op)
                              (ms_num_bytes op) (get_stream sample_queue) in
  exists r,
    submit_memset device_ok sample_queue op node empty_world
      = Returned r (log_call fill empty_world) /\
    (r = make_success <->
     fst (device_ok (api_trace empty_world) fill) = musaSuccess).
Proof.
  intros node op. split; [repeat split |].
  exact (submit_memset_uninstrumented device_ok sample_queue op node
           empty_world eq_refl eq_refl eq_refl).
Defined.

(** On a device that rejects every call no marker can be recorded: the
    start entry holds the null pointer, the finish entry has neither
    marker, each failure is registered, and the result reports only the
    rejected fill. *)
Example profiled_memset_on_broken_device :
  exists w',
    submit_memset device_broken sample_queue
                  (mk_memset_operation 4096 0 64%N) (Some profiled_node)
                  empty_world
      = Returned
          (make_error (mk_error_info "musa_queue: musaMemsetAsync() failed"
                                     (Some (code_MUSA (musaErrorOther 999)))))
          w' /\
    instrumentations w' =
      [ submission_timestamp;
        execution_start_timestamp None;
        execution_finish_timestamp None None ] /\
    length (registered_errors w') = 2%nat.
Proof. vm_compute. eexists. repeat split. Qed.

(** The second failing case of name resolution: the code object lists the
    empty string before [k], the given name is empty, the loop stops at the
    empty string, and dispatch fails although the given name is contained in
    every supported name. *)
Example empty_first_match_is_discovery_error :
  exists w',
    submit_multipass_kernel_from_code_object
      device_ok driver_ok sample_hcf sample_generate_id sample_extend_hash
      (fun _ _ _ _ =>
         ret (mk_code_object make_success 77 [EmptyString; "k"]))
      sample_queue 1%N EmptyString unit_range unit_range 0 0 empty_world
    = Returned discovery_error w' /\
    api_trace w' = [activate_device_call 0].
Proof. vm_compute. eexists. split; reflexivity. Qed.

(** The message of the SSCP constructor for a failed build with a null
    module, and for the module handle 77. *)
Example sscp_constructor_message :
  (exists w',
     sscp_code_object_constructor unit
       (fun e => ("image", [ae_kernel_name e]))
       (fun _ _ _ _ _ _ => ret broken_object) 1%N
       (mk_adaptivity_engine 1%N "kernel_add" sample_kernel_info unit_range
                             unit_range 0 0 0%N 0)
       tt "mp_22" 0 "ptx" empty_world = Returned None w' /\
     diagnostics w' =
       [debug_info
          "musa_queue: Successfully compiled SSCP kernels to module 0"]) /\
  pointer_to_stream 77 = "0x4d".
Proof. vm_compute. split; [eexists; split |]; reflexivity. Qed.
